(** * Maji Ndogo field-data pipeline: a shallow embedding

    The development follows the two Python modules of the repository:
    - [data_ingestion.py]: [create_db_engine], [query_data],
      [read_from_web_CSV];
    - [field_data_processor.py]: the class [FieldDataProcessor] with
      [ingest_sql_data], [rename_columns], [apply_corrections],
      [weather_station_mapping] and [process].

    The code is written against pandas.  Module [Pandas] models the
    handful of pandas operations the code calls, on the frames described
    below; modules [Ingestion] and [Processor] translate the repository's
    functions statement by statement on top of it.

    Scope of the model.
    - A column is either an [int64] column or an [object] column of
      Python strings.  Floating-point columns and missing values are not
      represented.
    - Characters are code points below 256.
    - Column labels are strings; [getitem] and [setitem] are those of a
      frame whose labels are unique.
    - The database and the web are a parameter ([World]): what
      [create_engine], [engine.connect], [read_sql_query] and [read_csv]
      answer.
    - The [while] loop of [rename_columns] runs on a budget of tests of
      its condition; the budget given is shown never to run out.
    - Log output is not part of the observed state. *)

From stdpp Require Import base decidable option list numbers strings gmap.

(** ** Exceptions and outcomes *)

Inductive exn :=
| ValueError (msg : string)
| KeyError (key : string)
| TypeError
| AttributeError
| IndexError
| MergeError
| ImportError
| UnboundLocalError
| OtherError (what : string).

(** What running a piece of code gives: a value, a raised exception, or
    (for the one [while] loop of the code) exhaustion of the iteration
    budget given to the model of the loop. *)
Inductive outcome (A : Type) :=
| Return (a : A)
| Raise (e : exn)
| OutOfFuel.
Arguments Return {A} a.
Arguments Raise {A} e.
Arguments OutOfFuel {A}.

(** The result of a call that has no access to the instance. *)
Inductive result (A : Type) :=
| Ok (a : A)
| Err (e : exn).
Arguments Ok {A} a.
Arguments Err {A} e.

(** ** The pandas operations used by the code *)

Module Pandas.

(** A column: [int64] values, or Python [str] objects. *)
Inductive Series :=
| Int64 (xs : list Z)
| Object (xs : list string).

Definition series_len (s : Series) : nat :=
  match s with
  | Int64 xs => length xs
  | Object xs => length xs
  end.

(** A frame: a [RangeIndex] of [nrows] rows and the labelled columns,
    in order. *)
Record DataFrame := mkDF {
  nrows : nat;
  columns : list (string * Series)
}.

(** [df.columns] *)
Definition labels (d : DataFrame) : list string := (columns d).*1.

(** The frames pandas builds: every column spans the index. *)
Definition aligned (d : DataFrame) : Prop :=
  Forall (λ c, series_len c.2 = nrows d) (columns d).

(** [df.empty]: some axis has length zero. *)
Definition empty (d : DataFrame) : bool :=
  bool_decide (nrows d = 0) || bool_decide (columns d = []).

(** [df.rename(columns=mapper)] with a dict: a label that is a key is
    replaced by its value, every other label stays; keys that are not
    labels are ignored ([errors='ignore'] is the default). *)
Definition rename (mapper : gmap string string) (d : DataFrame) : DataFrame :=
  {| nrows := nrows d;
     columns := prod_map (λ l, default l (mapper !! l)) id <$> columns d |}.

(** [df[label]]: the column with that label, [KeyError] when there is
    none.  (Labels are unique in the frames considered; with a repeated
    label pandas answers with a sub-frame, which is not modelled.) *)
Fixpoint find_col (label : string) (cols : list (string * Series)) : option Series :=
  match cols with
  | [] => None
  | (l, s) :: rest => if decide (l = label) then Some s else find_col label rest
  end.

Definition getitem (d : DataFrame) (label : string) : result Series :=
  match find_col label (columns d) with
  | Some s => Ok s
  | None => Err (KeyError label)
  end.

(** [df[label] = s], for a series [s] on the index of [df]: an existing
    label keeps its position and gets the new values, a new label is
    appended. *)
Definition setitem (d : DataFrame) (label : string) (s : Series) : DataFrame :=
  {| nrows := nrows d;
     columns :=
       if bool_decide (label ∈ labels d)
       then (λ c, if decide (c.1 = label) then (c.1, s) else c) <$> columns d
       else columns d ++ [(label, s)] |}.

(** Two's-complement wrap-around of [int64] arithmetic. *)
Definition wrap64 (z : Z) : Z := ((z + 2 ^ 63) `mod` 2 ^ 64 - 2 ^ 63)%Z.

(** [s.abs()]: element-wise on [int64] (the least value wraps to
    itself); on an [object] column Python's [abs] is called on every
    element and fails on a [str]. *)
Definition series_abs (s : Series) : result Series :=
  match s with
  | Int64 xs => Ok (Int64 ((λ z, wrap64 (Z.abs z)) <$> xs))
  | Object [] => Ok (Object [])
  | Object (_ :: _) => Err TypeError
  end.

(** [str.isspace] on one character (code points below 256). *)
Definition isspace (c : Ascii.ascii) : bool :=
  let n := Ascii.nat_of_ascii c in
  ((9 <=? n) && (n <=? 13)) || ((28 <=? n) && (n <=? 32))
  || (n =? 133) || (n =? 160).

Fixpoint lstrip (s : string) : string :=
  match s with
  | EmptyString => EmptyString
  | String c r => if isspace c then lstrip r else s
  end.

Fixpoint rstrip (s : string) : string :=
  match s with
  | EmptyString => EmptyString
  | String c r =>
      match rstrip r with
      | EmptyString => if isspace c then EmptyString else String c EmptyString
      | r' => String c r'
      end
  end.

(** Python's [str.strip()] *)
Definition strip (s : string) : string := lstrip (rstrip s).

(** [s.str.strip()]: the [.str] accessor is refused on a column that is
    not made of strings. *)
Definition str_strip (s : Series) : result Series :=
  match s with
  | Object xs => Ok (Object (strip <$> xs))
  | Int64 _ => Err AttributeError
  end.

(** [df.drop(columns=label)]: [KeyError] when no column has the label
    ([errors='raise'] is the default). *)
Definition drop (label : string) (d : DataFrame) : result DataFrame :=
  if bool_decide (label ∈ labels d)
  then Ok {| nrows := nrows d; columns := filter (λ c, c.1 ≠ label) (columns d) |}
  else Err (KeyError label).

(** *** [left.merge(right)]: inner join on the common labels *)

Inductive cell := CInt (z : Z) | CStr (s : string).

Global Instance cell_eq_dec : EqDecision cell.
Proof. solve_decision. Defined.

Definition cell_at (s : Series) (i : nat) : option cell :=
  match s with
  | Int64 xs => CInt <$> xs !! i
  | Object xs => CStr <$> xs !! i
  end.

(** The rows of a column at the given positions. *)
Definition take (idx : list nat) (s : Series) : Series :=
  match s with
  | Int64 xs => Int64 (omap (λ i, xs !! i) idx)
  | Object xs => Object (omap (λ i, xs !! i) idx)
  end.

Definition dtype_name (s : Series) : string :=
  match s with Int64 _ => "int64" | Object _ => "object" end.

(** The labels of [a] that are also labels of [b]. *)
Definition shared (a b : DataFrame) : list string :=
  filter (λ l, l ∈ labels b) (labels a).

(** The key columns of both sides must have one dtype, unless one of
    the two has rows and the other has none, or both have none. *)
Definition key_mismatch (l r : DataFrame) (k : string) : bool :=
  match find_col k (columns l), find_col k (columns r) with
  | Some lk, Some rk =>
      bool_decide (dtype_name lk ≠ dtype_name rk)
      && negb (bool_decide (series_len lk = 0)) && negb (bool_decide (series_len rk = 0))
  | _, _ => false
  end.

Definition key_error_msg (l r : DataFrame) (k : string) : string :=
  "You are trying to merge on "
  +:+ from_option dtype_name "" (find_col k (columns l)) +:+ " and "
  +:+ from_option dtype_name "" (find_col k (columns r)) +:+ " columns for key '"
  +:+ k +:+ "'. If you wish to proceed you should use pd.concat".

(** The values of row [i] in the key columns. *)
Definition row_key (d : DataFrame) (keys : list string) (i : nat) : list (option cell) :=
  (λ k, find_col k (columns d) ≫= λ s, cell_at s i) <$> keys.

(** The pairs (left row, right row) with equal keys, in the order of
    the left rows. *)
Definition join_pairs (l r : DataFrame) (keys : list string) : list (nat * nat) :=
  i ← seq 0 (nrows l);
  j ← seq 0 (nrows r);
  if decide (row_key l keys i = row_key r keys j) then [(i, j)] else [].

Definition merge (l r : DataFrame) : result DataFrame :=
  let keys := shared l r in
  if bool_decide (keys = []) then Err MergeError
  else if negb (bool_decide (NoDup keys) && bool_decide (NoDup (shared r l)))
  then Err MergeError
  else
    match filter (λ k, key_mismatch l r k = true) keys with
    | k :: _ => Err (ValueError (key_error_msg l r k))
    | [] =>
        let pairs := join_pairs l r keys in
        Ok {| nrows := length pairs;
              columns :=
                (prod_map id (take pairs.*1) <$> columns l)
                ++ (prod_map id (take pairs.*2)
                      <$> filter (λ c, c.1 ∉ keys) (columns r)) |}
    end.

End Pandas.
Export Pandas.

Global Instance exn_eq_dec : EqDecision exn.
Proof. solve_decision. Defined.
Global Instance Series_eq_dec : EqDecision Series.
Proof. solve_decision. Defined.
Global Instance DataFrame_eq_dec : EqDecision DataFrame.
Proof. solve_decision. Defined.

(** ** data_ingestion.py *)

Module Ingestion.

(** The SQLAlchemy engine, identified by the path it was made for. *)
Record Engine := mkEngine { engine_url : string }.

(** What the outside answers: [sqlalchemy.create_engine], the test
    connection [engine.connect()], [pd.read_sql_query] over a
    connection of the engine, and [pd.read_csv] on a URL. *)
Record World := mkWorld {
  create_engine : string → result Engine;
  connect : Engine → result ();
  read_sql_query : Engine → string → result DataFrame;
  read_csv : string → result DataFrame
}.

Section Functions.
Variable w : World.

(** The handler [except ImportError:] binds no name and then runs
    [raise e]: [e] is a local of the function that is unbound there.
    The handler [except Exception as e] raises what it caught. *)
Definition create_db_engine_handlers {A} (e : exn) : result A :=
  match e with
  | ImportError => Err UnboundLocalError
  | _ => Err e
  end.

Definition create_db_engine (db_path : string) : result Engine :=
  match create_engine w db_path with
  | Err e => create_db_engine_handlers e
  | Ok engine =>
      match connect w engine with
      | Err e => create_db_engine_handlers e
      | Ok _ => Ok engine
      end
  end.

(** Both handlers of [query_data] log and raise what they caught. *)
Definition query_data (engine : Engine) (sql_query : string) : result DataFrame :=
  match connect w engine with
  | Err e => Err e
  | Ok _ =>
      match read_sql_query w engine sql_query with
      | Err e => Err e
      | Ok df =>
          if empty df
          then Err (ValueError "The query returned an empty DataFrame.")
          else Ok df
      end
  end.

(** Both handlers of [read_from_web_CSV] log and raise what they
    caught. *)
Definition read_from_web_CSV (URL : string) : result DataFrame :=
  match read_csv w URL with
  | Err e => Err e
  | Ok df => Ok df
  end.

End Functions.

End Ingestion.
Export Ingestion.

Global Instance Engine_eq_dec : EqDecision Engine.
Proof. solve_decision. Defined.

(** ** field_data_processor.py *)

Module Processor.

(** The [config_params] dict read by [__init__]. [columns_to_rename] is
    a dict whose first item is used, so its items are kept in insertion
    order. *)
Record Config := mkConfig {
  db_path : string;
  sql_query : string;
  columns_to_rename : list (string * string);
  values_to_rename : gmap string string;
  weather_map_data : string
}.

(** The instance attributes that change: [self.df] and [self.engine]. *)
Record State := mkState {
  df : option DataFrame;
  engine : option Engine
}.

(** [__init__]: both attributes start as [None]. *)
Definition init : State := {| df := None; engine := None |}.

(** A method body: from the instance state to an outcome and the state
    the instance is left in (also when an exception is raised). *)
Definition M (A : Type) : Type := State → outcome A * State.

Global Instance M_ret : MRet M := λ A a s, (Return a, s).
Global Instance M_bind : MBind M := λ A B f m s,
  match m s with
  | (Return a, s') => f a s'
  | (Raise e, s') => (Raise e, s')
  | (OutOfFuel, s') => (OutOfFuel, s')
  end.

(** A call that returns or raises, the instance untouched. *)
Definition call {A} (r : result A) : M A := λ s,
  match r with
  | Ok a => (Return a, s)
  | Err e => (Raise e, s)
  end.

(** Reading [self.df] for an attribute access or a subscript: on [None]
    Python raises [e]. *)
Definition self_df (e : exn) : M DataFrame := λ s,
  match df s with
  | Some d => (Return d, s)
  | None => (Raise e, s)
  end.

(** [self.df = d] *)
Definition set_df (d : DataFrame) : M unit := λ s,
  (Return (), {| df := Some d; engine := engine s |}).

(** [self.engine] and [self.engine = e] *)
Definition self_engine : M (option Engine) := λ s, (Return (engine s), s).
Definition set_engine (e : Engine) : M unit := λ s,
  (Return (), {| df := df s; engine := Some e |}).

(** [temp_name = ...; while temp_name in self.df.columns: temp_name += "_"],
    with a bound on the number of tests of the loop condition. *)
Fixpoint while_temp_name (fuel : nat) (cols : list string) (temp_name : string)
  : option string :=
  match fuel with
  | 0 => None
  | S fuel' =>
      if bool_decide (temp_name ∈ cols)
      then while_temp_name fuel' cols (temp_name +:+ "_")
      else Some temp_name
  end.

Definition swap_temp_name (cols : list string) : M string := λ s,
  match while_temp_name (S (length cols)) cols "__temp_name_for_swap__" with
  | Some t => (Return t, s)
  | None => (OutOfFuel, s)
  end.

Section Methods.
Variable w : World.
Variable cfg : Config.

Definition ingest_sql_data : M DataFrame :=
  e ← self_engine;
  (if e is None
   then e' ← call (create_db_engine w (db_path cfg)); set_engine e'
   else mret ());;
  e ← self_engine;
  (* [query_data(None, ...)] would fail on [engine.connect()] *)
  d ← call (from_option (λ e, query_data w e (sql_query cfg)) (Err AttributeError) e);
  set_df d;;
  self_df AttributeError.

(** [list(d.keys())[0], list(d.values())[0]] *)
Definition first_item (d : list (string * string)) : M (string * string) :=
  match d with
  | [] => call (Err IndexError)
  | kv :: _ => mret kv
  end.

Definition rename_columns : M unit :=
  '(column1, column2) ← first_item (columns_to_rename cfg);
  d ← self_df AttributeError;
  temp_name ← swap_temp_name (labels d);
  d ← self_df AttributeError;
  set_df (rename (<[column2 := column1]> {[column1 := temp_name]}) d);;
  d ← self_df AttributeError;
  set_df (rename {[temp_name := column2]} d).

(** [s.apply(lambda crop: self.values_to_rename.get(crop, crop))]:
    the keys of the table are strings, so an integer is never a key,
    and the resulting column has the dtype of [s]. *)
Definition apply_values_to_rename (s : Series) : Series :=
  match s with
  | Int64 xs => Int64 xs
  | Object xs =>
      Object ((λ crop, default crop (values_to_rename cfg !! crop)) <$> xs)
  end.

Definition apply_corrections (column_name abs_column : string) : M unit :=
  d ← self_df TypeError;
  s ← call (getitem d abs_column);
  a ← call (series_abs s);
  d ← self_df TypeError;
  set_df (setitem d abs_column a);;
  d ← self_df TypeError;
  s ← call (getitem d column_name);
  d ← self_df TypeError;
  set_df (setitem d column_name (apply_values_to_rename s));;
  d ← self_df TypeError;
  s ← call (getitem d column_name);
  t ← call (str_strip s);
  d ← self_df TypeError;
  set_df (setitem d column_name t).

(** The attribute [self.df.merge] is looked up before the argument of
    the call is evaluated. *)
Definition weather_station_mapping : M DataFrame :=
  d ← self_df AttributeError;
  m ← call (read_from_web_CSV w (weather_map_data cfg));
  j ← call (merge d m);
  set_df j;;
  self_df AttributeError.

(** [self.df = self.df.drop(columns="Unnamed: 0")] *)
Definition drop_unnamed : M unit :=
  d ← self_df AttributeError;
  d' ← call (drop "Unnamed: 0" d);
  set_df d'.

Definition process : M unit :=
  ingest_sql_data;;
  rename_columns;;
  apply_corrections "Crop_type" "Elevation";;
  weather_station_mapping;;
  drop_unnamed.

(** The statements of [process] before the final [drop]. *)
Definition process_until_join : M DataFrame :=
  ingest_sql_data;;
  rename_columns;;
  apply_corrections "Crop_type" "Elevation";;
  weather_station_mapping.

End Methods.

End Processor.
Export Processor.

(** ** [initialize_logging] and [__init__] *)

Module Logging.

(** [str.upper] on one character (code points below 256): the code
    points of the result. The letters [a]-[z] and the accented small
    letters move down by 32; the micro sign becomes the Greek capital
    mu, the sharp s becomes [SS], the y with diaeresis its capital. *)
Definition upper_char (c : Ascii.ascii) : list N :=
  let n := Ascii.N_of_ascii c in
  if ((97 <=? n) && (n <=? 122))%N then [(n - 32)%N]
  else if (n =? 181)%N then [924%N]
  else if (n =? 223)%N then [83%N; 83%N]
  else if ((224 <=? n) && (n <=? 254) && negb (n =? 247))%N then [(n - 32)%N]
  else if (n =? 255)%N then [376%N]
  else [n].

Fixpoint upper (s : string) : list N :=
  match s with
  | EmptyString => []
  | String c r => upper_char c ++ upper r
  end.

Fixpoint code_points (s : string) : list N :=
  match s with
  | EmptyString => []
  | String c r => Ascii.N_of_ascii c :: code_points r
  end.

(** [logging_level.upper() == word] *)
Definition upper_is (logging_level word : string) : bool :=
  bool_decide (upper logging_level = code_points word).

(** The levels the code sets, and the level of a logger that was never
    given one. *)
Inductive Level := NOTSET | DEBUG | INFO.

(** A [StreamHandler] with its [Formatter]. *)
Record Handler := mkHandler { formatter : string }.

(** The attributes of a [logging.Logger] the code touches. *)
Record Logger := mkLogger {
  propagate : bool;
  disabled : bool;
  level : Level;
  handlers : list Handler
}.

(** A logger as [logging.getLogger] creates it. *)
Definition new_logger : Logger :=
  {| propagate := true; disabled := false; level := NOTSET; handlers := [] |}.

(** [logging.getLogger(name)]: the one logger of that name, created at
    the first request. The loggers of the process are a map by name. *)
Definition getLogger (name : string) (loggers : gmap string Logger) : Logger :=
  default new_logger (loggers !! name).

Definition console_handler : Handler :=
  {| formatter := "%(asctime)s - %(name)s - %(levelname)s - %(message)s" |}.

(** [logger.setLevel(log_level)] and the handler added when the logger
    has none. *)
Definition set_level_and_handler (log_level : Level) (lg : Logger) : Logger :=
  {| propagate := propagate lg;
     disabled := disabled lg;
     level := log_level;
     handlers := if bool_decide (handlers lg = [])
                 then handlers lg ++ [console_handler]
                 else handlers lg |}.

(** The name of the logger: [__name__ + ".FieldDataProcessor"]. *)
Definition logger_name (module_name : string) : string :=
  module_name +:+ ".FieldDataProcessor".

Definition initialize_logging (module_name logging_level : string)
    (loggers : gmap string Logger) : gmap string Logger :=
  let lg := getLogger (logger_name module_name) loggers in
  let lg := {| propagate := false; disabled := disabled lg;
               level := level lg; handlers := handlers lg |} in
  if upper_is logging_level "DEBUG"
  then <[logger_name module_name := set_level_and_handler DEBUG lg]> loggers
  else if upper_is logging_level "INFO"
  then <[logger_name module_name := set_level_and_handler INFO lg]> loggers
  else if upper_is logging_level "NONE"
  then <[logger_name module_name :=
           {| propagate := propagate lg; disabled := true;
              level := level lg; handlers := handlers lg |}]> loggers
  else <[logger_name module_name := set_level_and_handler INFO lg]> loggers.

End Logging.
Export Logging.

Module Construction.

(** The values of [config_params] considered: a string, or a dict from
    strings to strings with its items in insertion order. *)
Inductive pyval :=
| PyStr (s : string)
| PyDict (items : list (string * string)).

(** The attributes [__init__] copies from [config_params]. *)
Record Attrs := mkAttrs {
  attr_db_path : pyval;
  attr_sql_query : pyval;
  attr_columns_to_rename : pyval;
  attr_values_to_rename : pyval;
  attr_weather_map_data : pyval
}.

(** [config_params[key]] *)
Definition subscript (config_params : gmap string pyval) (key : string)
  : result pyval :=
  match config_params !! key with
  | Some v => Ok v
  | None => Err (KeyError key)
  end.

(** [__init__(config_params, logging_level)]: the attributes, the state
    of a new instance and the loggers of the process afterwards; on a
    missing key the exception, the loggers as they were. *)
Definition __init__ (module_name : string) (config_params : gmap string pyval)
    (logging_level : string) (loggers : gmap string Logger)
  : result (Attrs * State) * gmap string Logger :=
  match subscript config_params "db_path" with
  | Err e => (Err e, loggers)
  | Ok v1 =>
  match subscript config_params "sql_query" with
  | Err e => (Err e, loggers)
  | Ok v2 =>
  match subscript config_params "columns_to_rename" with
  | Err e => (Err e, loggers)
  | Ok v3 =>
  match subscript config_params "values_to_rename" with
  | Err e => (Err e, loggers)
  | Ok v4 =>
  match subscript config_params "weather_mapping_csv" with
  | Err e => (Err e, loggers)
  | Ok v5 =>
      (Ok (mkAttrs v1 v2 v3 v4 v5, {| df := None; engine := None |}),
       initialize_logging module_name logging_level loggers)
  end end end end end.

(** The configuration the methods read, when the attributes have the
    types the methods need. *)
Definition as_config (a : Attrs) : option Config :=
  match attr_db_path a, attr_sql_query a, attr_columns_to_rename a,
        attr_values_to_rename a, attr_weather_map_data a with
  | PyStr p, PyStr q, PyDict cs, PyDict vs, PyStr u =>
      Some {| db_path := p; sql_query := q; columns_to_rename := cs;
              values_to_rename := list_to_map vs; weather_map_data := u |}
  | _, _, _, _, _ => None
  end.

End Construction.
Export Construction.

Global Instance pyval_eq_dec : EqDecision pyval.
Proof. solve_decision. Defined.

(** ** Vocabulary of the properties *)

(** A frame with every label sent through [f], the columns in place. *)
Definition relabel (f : string → string) (d : DataFrame) : DataFrame :=
  {| nrows := nrows d; columns := prod_map f id <$> columns d |}.

(** Exchanging the two labels [a] and [b]. *)
Definition swap_label (a b l : string) : string :=
  if decide (l = a) then b else if decide (l = b) then a else l.

(** Sending the label [a] to [b], one way. *)
Definition move_label (a b l : string) : string :=
  if decide (l = a) then b else l.

(** What the two [rename] calls of [rename_columns] do to one label. *)
Definition two_renames (a b temp l : string) : string :=
  let l1 := default l ((<[b := a]> {[a := temp]} : gmap string string) !! l) in
  default l1 (({[temp := b]} : gmap string string) !! l1).

(** The labels no shorter than a candidate temporary name: every later
    candidate of the loop that is a label is one of them. *)
Definition not_shorter (cols : list string) (temp : string) : list string :=
  filter (λ c, String.length temp ≤ String.length c) cols.

(** One value of the value column after [apply_corrections]: the
    canonical value on a hit in the table, the value itself on a miss,
    stripped in both cases. *)
Definition corrected (table : gmap string string) (v : string) : string :=
  strip (match table !! v with Some canonical => canonical | None => v end).

(** [d'] has the rows and the labels of [d], in order, and the columns
    of [d] whose label is not in [ls]. *)
Definition kept_outside (ls : list string) (d d' : DataFrame) : Prop :=
  nrows d' = nrows d
  ∧ Forall2 (λ x y, x.1 = y.1 ∧ (x.1 ∉ ls → x = y)) (columns d) (columns d').

(** ** Concrete datasets, configurations and worlds *)

Module Examples.

(** A dataset with the columns [Field_ID, Plot_ID, Elevation]. *)
Definition plots : DataFrame :=
  mkDF 2 [("Field_ID", Int64 [1; 2]%Z); ("Plot_ID", Int64 [7; 8]%Z);
          ("Elevation", Int64 [-430; 12]%Z)].

(** The same dataset without the column [Field_ID]. *)
Definition plots_no_field : DataFrame :=
  mkDF 2 [("Plot_ID", Int64 [7; 8]%Z); ("Elevation", Int64 [-430; 12]%Z)].

(** The row [{Field_ID: 1, Elevation: -430, Crop_type: " cassaval "}]. *)
Definition cassaval_row : DataFrame :=
  mkDF 1 [("Field_ID", Int64 [1]%Z); ("Elevation", Int64 [-430]%Z);
          ("Crop_type", Object [" cassaval "])].

(** Crop values: a key of the table, the same key padded, a canonical
    value with a trailing blank, and a value the table does not know. *)
Definition crops : DataFrame :=
  mkDF 4 [("Elevation", Int64 [-5; 0; 3; -9223372036854775808]%Z);
          ("Crop_type", Object ["cassaval"; " cassaval "; "tea "; "maize"])].

(** A query result as [read_sql_query] gives it in the pipeline, with
    the index column of the stored table. *)
Definition survey : DataFrame :=
  mkDF 2 [("Unnamed: 0", Int64 [0; 1]%Z); ("Field_ID", Int64 [1; 2]%Z);
          ("Elevation", Int64 [-430; 12]%Z);
          ("Annual_yield", Object [" cassaval "; "tea "]);
          ("Crop_type", Int64 [3; 4]%Z)].

(** The same query result without the index column. *)
Definition survey_no_index : DataFrame :=
  mkDF 2 [("Field_ID", Int64 [1; 2]%Z); ("Elevation", Int64 [-430; 12]%Z);
          ("Annual_yield", Object [" cassaval "; "tea "]);
          ("Crop_type", Int64 [3; 4]%Z)].

(** The same columns, no rows. *)
Definition survey_no_rows : DataFrame :=
  mkDF 0 [("Unnamed: 0", Int64 []); ("Field_ID", Int64 []);
          ("Elevation", Int64 []); ("Annual_yield", Object []);
          ("Crop_type", Int64 [])].

(** Mapping tables: one station per field; two stations for field 1;
    stations for fields that are not in [survey]. *)
Definition stations : DataFrame :=
  mkDF 2 [("Field_ID", Int64 [2; 1]%Z); ("Weather_station", Int64 [0; 4]%Z)].
Definition stations_twice : DataFrame :=
  mkDF 3 [("Field_ID", Int64 [1; 2; 1]%Z); ("Weather_station", Int64 [4; 0; 3]%Z)].
Definition stations_elsewhere : DataFrame :=
  mkDF 2 [("Field_ID", Int64 [8; 9]%Z); ("Weather_station", Int64 [0; 4]%Z)].
Definition stations_unrelated : DataFrame :=
  mkDF 2 [("Station", Int64 [0; 4]%Z); ("Measurement", Object ["Rainfall"; "Temperature"])].

Definition config (pair : string * string) : Config :=
  {| db_path := "sqlite:///Maji_Ndogo_farm_survey_small.db";
     sql_query := "SELECT * FROM geographic_features";
     columns_to_rename := [pair];
     values_to_rename := {["cassaval" := "cassava"]};
     weather_map_data := "Weather_data_field_mapping.csv" |}.

(** A world where the store answers the query with [table] and the
    web answers with [mapping]. *)
Definition world (table mapping : DataFrame) : World :=
  {| create_engine := λ path, Ok (mkEngine path);
     connect := λ _, Ok ();
     read_sql_query := λ _ _, Ok table;
     read_csv := λ _, Ok mapping |}.

(** An instance that holds [d]. *)
Definition holding (d : DataFrame) : State := {| df := Some d; engine := None |}.

(** The configuration of the survey: the two columns whose contents
    are exchanged in the store. *)
Definition survey_config : Config := config ("Annual_yield", "Crop_type").
Definition plots_config : Config := config ("Field_ID", "Plot_ID").

Definition survey_engine : Engine :=
  mkEngine "sqlite:///Maji_Ndogo_farm_survey_small.db".

(** A world like [world], in which no engine can be made. *)
Definition world_without_driver (table mapping : DataFrame) : World :=
  {| create_engine := λ _, Err ImportError;
     connect := λ _, Ok ();
     read_sql_query := λ _ _, Ok table;
     read_csv := λ _, Ok mapping |}.

(** An instance that holds [d] and an engine. *)
Definition holding_with_engine (d : DataFrame) : State :=
  {| df := Some d; engine := Some survey_engine |}.

(** A configuration whose [columns_to_rename] is the empty dict. *)
Definition config_without_pair : Config :=
  {| db_path := "sqlite:///Maji_Ndogo_farm_survey_small.db";
     sql_query := "SELECT * FROM geographic_features";
     columns_to_rename := [];
     values_to_rename := {["cassaval" := "cassava"]};
     weather_map_data := "Weather_data_field_mapping.csv" |}.


(** A [config_params] with the five keys and one more. *)
Definition params : gmap string pyval :=
  <["db_path" := PyStr "sqlite:///Maji_Ndogo_farm_survey_small.db"]>
  (<["sql_query" := PyStr "SELECT * FROM geographic_features"]>
  (<["columns_to_rename" := PyDict [("Annual_yield", "Crop_type")]]>
  (<["values_to_rename" := PyDict [("cassaval", "cassava")]]>
  (<["weather_mapping_csv" := PyStr "Weather_data_field_mapping.csv"]>
  (<["comment" := PyStr "not read"]> ∅))))).

(** The same without the query. *)
Definition params_without_query : gmap string pyval := delete "sql_query" params.

End Examples.

(** ** Further vocabulary *)

(** [k] underscores, and the [k]-th name the loop of [rename_columns]
    tries. *)
Fixpoint underscores (k : nat) : string :=
  match k with
  | 0 => ""
  | S k' => underscores k' +:+ "_"
  end.

Definition candidate (k : nat) : string :=
  "__temp_name_for_swap__" +:+ underscores k.

(** A string that begins, or ends, with a whitespace character. *)
Definition starts_with_space (s : string) : bool :=
  match s with
  | EmptyString => false
  | String c _ => isspace c
  end.

Fixpoint ends_with_space (s : string) : bool :=
  match s with
  | EmptyString => false
  | String c r =>
      match r with
      | EmptyString => isspace c
      | String _ _ => ends_with_space r
      end
  end.

(** The values of an [int64]. *)
Definition in_int64 (z : Z) : Prop := (- 2 ^ 63 ≤ z < 2 ^ 63)%Z.

(** A dataset as pandas hands it over and as the data model wants it:
    columns on the index, labels unique. *)
Definition well_formed (d : DataFrame) : Prop :=
  aligned d ∧ NoDup (labels d).

(** [s] is [word] up to the case of its letters, [word] being written
    in capital letters [A]-[Z]: each character of [s] is the letter of
    [word] at its place or the small letter for it. *)
Fixpoint same_word (s word : string) : Prop :=
  match s, word with
  | EmptyString, EmptyString => True
  | String c r, String u v =>
      (Ascii.N_of_ascii c = Ascii.N_of_ascii u
       ∨ Ascii.N_of_ascii c = (Ascii.N_of_ascii u + 32)%N)
      ∧ same_word r v
  | _, _ => False
  end.

(** Capital letters other than [S] (which [str.upper] also makes from a
    sharp s). *)
Definition plain_capitals (word : string) : Prop :=
  Forall (λ u, (65 ≤ u ≤ 90)%N ∧ u ≠ 83%N) (code_points word).

(** The keys [__init__] reads, in the order it reads them, and the first
    of them that [config_params] lacks. *)
Definition config_keys : list string :=
  ["db_path"; "sql_query"; "columns_to_rename"; "values_to_rename";
   "weather_mapping_csv"].

Definition first_missing (config_params : gmap string pyval) : option string :=
  head (filter (λ k, config_params !! k = None) config_keys).

(** Several instances made one after the other in one process: the
    loggers after the calls of [initialize_logging] they make. *)
Definition initialize_logging_each (module_name : string)
    (logging_levels : list string) (loggers : gmap string Logger)
  : gmap string Logger :=
  foldl (λ lgs lvl, initialize_logging module_name lvl lgs) loggers logging_levels.

(** A state whose dataset, if any, is well formed. *)
Definition holds_well_formed (s : State) : Prop :=
  ∀ d, df s = Some d → well_formed d.

(** The steps of [process] after [ingest_sql_data]. *)
Definition process_after_ingest (w : World) (cfg : Config) : M unit :=
  rename_columns cfg;;
  apply_corrections cfg "Crop_type" "Elevation";;
  weather_station_mapping w cfg;;
  drop_unnamed.

(** * Properties *)

(** ** The loop of [rename_columns] ends on an unused label *)

Lemma string_length_app (a b : string) :
  String.length (a +:+ b) = String.length a + String.length b.
Proof. induction a as [|c a IH]; simpl; [done | by rewrite IH]. Qed.

Lemma not_shorter_step cols temp :
  temp ∈ cols →
  length (not_shorter cols (temp +:+ "_")) < length (not_shorter cols temp).
Proof.
  intros Hin. unfold not_shorter.
  assert (Heq : filter (λ c, String.length (temp +:+ "_") ≤ String.length c) cols
          = filter (λ c, String.length (temp +:+ "_") ≤ String.length c)
              (filter (λ c, String.length temp ≤ String.length c) cols)).
  { rewrite list_filter_filter. apply list_filter_iff.
    intros c. rewrite string_length_app. simpl. lia. }
  rewrite Heq. apply length_filter_lt with temp.
  - apply list_elem_of_filter. split; [lia | done].
  - rewrite string_length_app. simpl. lia.
Qed.

Lemma while_temp_name_fuel cols fuel temp :
  length (not_shorter cols temp) < fuel →
  ∃ t, while_temp_name fuel cols temp = Some t ∧ t ∉ cols.
Proof.
  revert temp. induction fuel as [|fuel IH]; intros temp Hlt; [lia|].
  simpl. case_bool_decide as Hin.
  - apply IH. pose proof (not_shorter_step cols temp Hin). lia.
  - eauto.
Qed.

Lemma while_temp_name_total cols :
  ∃ t, while_temp_name (S (length cols)) cols "__temp_name_for_swap__" = Some t
       ∧ t ∉ cols.
Proof.
  apply while_temp_name_fuel. unfold not_shorter.
  pose proof (length_filter
    (λ c, String.length "__temp_name_for_swap__" ≤ String.length c) cols). lia.
Qed.

(** ** [rename] as a relabelling *)

Lemma labels_relabel f d : labels (relabel f d) = f <$> labels d.
Proof.
  unfold labels, relabel. simpl. rewrite <- !list_fmap_compose.
  by apply list_fmap_ext; intros ? [l c] ?.
Qed.

Lemma series_relabel f d : (columns (relabel f d)).*2 = (columns d).*2.
Proof.
  unfold relabel. simpl. rewrite <- !list_fmap_compose.
  by apply list_fmap_ext; intros ? [l c] ?.
Qed.

Lemma relabel_ext f g d :
  (∀ l, l ∈ labels d → f l = g l) → relabel f d = relabel g d.
Proof.
  intros Hfg. unfold relabel. f_equal. apply Forall_fmap_ext.
  apply Forall_forall. intros [l c] Hin. unfold prod_map. simpl. f_equal.
  apply Hfg. unfold labels. apply list_elem_of_fmap. by exists (l, c).
Qed.

Lemma relabel_relabel f g d : relabel g (relabel f d) = relabel (g ∘ f) d.
Proof.
  unfold relabel. simpl. f_equal. rewrite <- list_fmap_compose.
  by apply list_fmap_ext; intros ? [l c] ?.
Qed.

Lemma relabel_id d : relabel id d = d.
Proof.
  destruct d as [n cols]. unfold relabel. simpl. f_equal.
  rewrite <- (list_fmap_id cols) at 2. by apply list_fmap_ext; intros ? [l c] ?.
Qed.

Lemma two_renames_relabel a b temp d :
  rename {[temp := b]} (rename (<[b := a]> {[a := temp]}) d)
  = relabel (two_renames a b temp) d.
Proof.
  unfold rename, relabel. simpl. f_equal. rewrite <- list_fmap_compose.
  by apply list_fmap_ext; intros ? [l c] ?.
Qed.

Lemma two_renames_unfold a b temp l :
  two_renames a b temp l =
  let l1 := if decide (l = b) then a else if decide (l = a) then temp else l in
  if decide (l1 = temp) then b else l1.
Proof.
  unfold two_renames. simpl.
  assert (H1 : default l ((<[b := a]> {[a := temp]} : gmap string string) !! l)
          = if decide (l = b) then a else if decide (l = a) then temp else l).
  { destruct (decide (l = b)) as [->|Hb].
    - by rewrite lookup_insert_eq.
    - rewrite lookup_insert_ne by done.
      destruct (decide (l = a)) as [->|Ha].
      + by rewrite lookup_singleton_eq.
      + by rewrite lookup_singleton_ne. }
  rewrite H1. set (l1 := if decide (l = b) then a else _).
  destruct (decide (l1 = temp)) as [->|Ht].
  - by rewrite lookup_singleton_eq.
  - by rewrite lookup_singleton_ne.
Qed.

(** Both labels present: the two renames exchange them. *)
Lemma two_renames_swap a b temp d :
  a ∈ labels d → b ∈ labels d → temp ∉ labels d →
  relabel (two_renames a b temp) d = relabel (swap_label a b) d.
Proof.
  intros Ha Hb Ht. apply relabel_ext. intros l Hl.
  rewrite two_renames_unfold. unfold swap_label. simpl.
  repeat case_decide; congruence.
Qed.

(** What [rename_columns] computes on any frame. *)
Lemma rename_columns_run cfg s d a b rest :
  columns_to_rename cfg = (a, b) :: rest → df s = Some d →
  ∃ temp,
    while_temp_name (S (length (labels d))) (labels d) "__temp_name_for_swap__"
      = Some temp
    ∧ (temp ∉ labels d)
    ∧ rename_columns cfg s
      = (Return (), mkState (Some (relabel (two_renames a b temp) d)) (engine s)).
Proof.
  intros Hcfg Hdf.
  destruct (while_temp_name_total (labels d)) as (temp & Hloop & Hfresh).
  exists temp. split; [done|]. split; [done|].
  unfold rename_columns, mbind, M_bind, first_item. rewrite Hcfg. simpl.
  unfold self_df at 1. rewrite Hdf. unfold swap_temp_name. rewrite Hloop.
  unfold self_df at 1. rewrite Hdf. simpl.
  by rewrite two_renames_relabel.
Qed.

Lemma swap_label_involutive a b l : swap_label a b (swap_label a b l) = l.
Proof. unfold swap_label. repeat case_decide; congruence. Qed.

Lemma find_col_relabel f cols l :
  (∀ x y, f x = f y → x = y) →
  find_col (f l) (prod_map f id <$> cols) = find_col l cols.
Proof.
  intros Hinj. induction cols as [|[l0 c0] cols IH]; [done|].
  simpl. destruct (decide (l0 = l)) as [->|Hne].
  - by rewrite decide_True.
  - rewrite decide_False; [apply IH|]. intros Heq. by apply Hne, Hinj.
Qed.

Lemma find_col_swap a b d l :
  find_col (swap_label a b l) (columns (relabel (swap_label a b) d))
  = find_col l (columns d).
Proof.
  unfold relabel. simpl. apply find_col_relabel.
  intros x y Hxy. rewrite <- (swap_label_involutive a b x), Hxy.
  apply swap_label_involutive.
Qed.

Lemma find_col_is_Some l cols : l ∈ cols.*1 → is_Some (find_col l cols).
Proof.
  induction cols as [|[l0 c0] cols IH]; simpl.
  - by intros ?%elem_of_nil.
  - intros [->|Hin]%elem_of_cons.
    + by rewrite decide_True.
    + case_decide; [done | by apply IH].
Qed.

(** Under a label of the frame, [getitem] is decided by [find_col]. *)
Lemma getitem_present d d' l l' :
  l ∈ labels d → find_col l' (columns d') = find_col l (columns d) →
  getitem d' l' = getitem d l.
Proof.
  intros Hin Heq. unfold getitem. rewrite Heq.
  by destruct (find_col_is_Some l (columns d) Hin) as [c ->].
Qed.

Lemma state_eta s d : df s = Some d → mkState (Some d) (engine s) = s.
Proof. destruct s as [o e]. simpl. by intros ->. Qed.

(** ** Claims on [rename_columns] *)

(** C1. On a dataset that has both columns of the configured pair
    [(a, b)], [rename_columns] returns normally and exchanges the two
    labels: the values that were under [a] are under [b] and the values
    that were under [b] are under [a]; every other label, the order of
    the columns, the values of every column and the row count are as
    before; and the temporary label the loop ends on is none of the
    labels of the dataset. *)
Theorem rename_columns_swaps cfg s d a b rest :
  columns_to_rename cfg = (a, b) :: rest → df s = Some d →
  a ∈ labels d → b ∈ labels d →
  ∃ d' temp,
    rename_columns cfg s = (Return (), mkState (Some d') (engine s))
    ∧ while_temp_name (S (length (labels d))) (labels d) "__temp_name_for_swap__"
        = Some temp
    ∧ (temp ∉ labels d)
    ∧ columns d' = prod_map (swap_label a b) id <$> columns d
    ∧ nrows d' = nrows d
    ∧ (columns d').*2 = (columns d).*2
    ∧ labels d' = swap_label a b <$> labels d
    ∧ getitem d' b = getitem d a
    ∧ getitem d' a = getitem d b
    ∧ (∀ c, c ≠ a → c ≠ b → getitem d' c = getitem d c).
Proof.
  intros Hcfg Hdf Ha Hb.
  destruct (rename_columns_run cfg s d a b rest Hcfg Hdf) as (temp & Hloop & Hfresh & Hrun).
  rewrite two_renames_swap in Hrun by done.
  exists (relabel (swap_label a b) d), temp.
  repeat split; try done.
  - apply series_relabel.
  - apply labels_relabel.
  - apply getitem_present; [done|]. rewrite <- (find_col_swap a b d a).
    f_equal. unfold swap_label. by rewrite decide_True.
  - apply getitem_present; [done|]. rewrite <- (find_col_swap a b d b).
    f_equal. unfold swap_label.
    destruct (decide (b = a)) as [->|]; [done|]. by rewrite decide_True.
  - intros c Hca Hcb. unfold getitem. rewrite <- (find_col_swap a b d c).
    unfold swap_label. by rewrite !decide_False.
Qed.

(** C5. On a dataset that has both columns of the pair, running
    [rename_columns] twice gives back the state it started from: the
    same labels in the same order with the same values. *)
Theorem rename_columns_involutive cfg s d a b rest :
  columns_to_rename cfg = (a, b) :: rest → df s = Some d →
  a ∈ labels d → b ∈ labels d →
  (rename_columns cfg;; rename_columns cfg) s = (Return (), s).
Proof.
  intros Hcfg Hdf Ha Hb.
  destruct (rename_columns_run cfg s d a b rest Hcfg Hdf) as (t1 & _ & Hf1 & Hrun1).
  rewrite two_renames_swap in Hrun1 by done.
  set (d1 := relabel (swap_label a b) d) in *.
  set (s1 := mkState (Some d1) (engine s)) in *.
  assert (Ha1 : a ∈ labels d1).
  { unfold d1. rewrite labels_relabel. apply list_elem_of_fmap_2' with b; [done|].
    unfold swap_label. destruct (decide (b = a)) as [->|]; [done|].
    by rewrite decide_True. }
  assert (Hb1 : b ∈ labels d1).
  { unfold d1. rewrite labels_relabel. apply list_elem_of_fmap_2' with a; [done|].
    unfold swap_label. by rewrite decide_True. }
  destruct (rename_columns_run cfg s1 d1 a b rest Hcfg eq_refl) as (t2 & _ & Hf2 & Hrun2).
  rewrite two_renames_swap in Hrun2 by done.
  unfold mbind, M_bind. rewrite Hrun1, Hrun2. f_equal.
  unfold d1, s1. simpl. rewrite relabel_relabel.
  rewrite (relabel_ext _ id), relabel_id.
  - by apply state_eta.
  - intros l _. apply swap_label_involutive.
Qed.

(** C8, as the code has it. On a dataset that lacks a column of the pair
    [(a, b)], [rename_columns] raises nothing and returns: the values,
    the order of the columns and the row count are as before; with both
    labels missing the dataset is unchanged; with only [b] missing the
    column [a] is relabelled [b]; with only [a] missing the column [b] is
    relabelled [a], unless [a] is the temporary label the loop ended on,
    in which case the dataset is unchanged. *)
Theorem rename_columns_missing_column cfg s d a b rest :
  columns_to_rename cfg = (a, b) :: rest → df s = Some d →
  ¬ (a ∈ labels d ∧ b ∈ labels d) →
  ∃ d' temp,
    rename_columns cfg s = (Return (), mkState (Some d') (engine s))
    ∧ while_temp_name (S (length (labels d))) (labels d) "__temp_name_for_swap__"
        = Some temp
    ∧ nrows d' = nrows d
    ∧ (columns d').*2 = (columns d).*2
    ∧ (a ∉ labels d → b ∉ labels d → d' = d)
    ∧ (a ∈ labels d → b ∉ labels d → d' = relabel (move_label a b) d)
    ∧ (a ∉ labels d → b ∈ labels d → a ≠ temp → d' = relabel (move_label b a) d)
    ∧ (a ∉ labels d → b ∈ labels d → a = temp → d' = d).
Proof.
  intros Hcfg Hdf _.
  destruct (rename_columns_run cfg s d a b rest Hcfg Hdf) as (temp & Hloop & Hfresh & Hrun).
  exists (relabel (two_renames a b temp) d), temp.
  split; [done|]. split; [done|]. split; [done|].
  split; [apply series_relabel|].
  assert (Hid : ∀ f, (∀ l, l ∈ labels d → f l = l) → relabel f d = d).
  { intros f Hf. rewrite (relabel_ext f id); [apply relabel_id | done]. }
  repeat split.
  - intros Ha Hb. apply Hid. intros l Hl. rewrite two_renames_unfold. simpl.
    repeat case_decide; congruence.
  - intros Ha Hb. apply relabel_ext. intros l Hl.
    rewrite two_renames_unfold. unfold move_label. simpl.
    repeat case_decide; congruence.
  - intros Ha Hb Hat. apply relabel_ext. intros l Hl.
    rewrite two_renames_unfold. unfold move_label. simpl.
    repeat case_decide; congruence.
  - intros Ha Hb Hat. apply Hid. intros l Hl. rewrite two_renames_unfold. simpl.
    repeat case_decide; congruence.
Qed.

(** ** [getitem] and [setitem] *)

Lemma getitem_Ok_label d l c : getitem d l = Ok c → l ∈ labels d.
Proof.
  unfold getitem, labels. destruct d as [n cols]. simpl.
  induction cols as [|[l0 c0] cols IH]; simpl; [done|].
  case_decide as Hl; [subst; intros _; apply elem_of_cons; by left|].
  intros H. apply elem_of_cons. right. by apply IH.
Qed.

Lemma find_col_setitem_eq d l c :
  l ∈ labels d → find_col l (columns (setitem d l c)) = Some c.
Proof.
  intros Hin. unfold setitem. simpl. rewrite bool_decide_eq_true_2 by done.
  unfold labels in Hin. induction (columns d) as [|[l0 c0] cols IH]; simpl.
  - by apply elem_of_nil in Hin.
  - destruct (decide (l0 = l)) as [->|Hne]; simpl.
    + by rewrite decide_True.
    + rewrite decide_False by done. apply IH.
      apply elem_of_cons in Hin as [Heq|Hin]; [simpl in Heq; congruence | done].
Qed.

Lemma find_col_setitem_ne d l l' c :
  l ∈ labels d → l' ≠ l →
  find_col l' (columns (setitem d l c)) = find_col l' (columns d).
Proof.
  intros Hin Hne. unfold setitem. simpl. rewrite bool_decide_eq_true_2 by done.
  clear Hin. induction (columns d) as [|[l0 c0] cols IH]; simpl; [done|].
  destruct (decide (l0 = l)) as [->|Hne0]; simpl.
  - by rewrite !decide_False by done.
  - case_decide; [done | apply IH].
Qed.

Lemma getitem_setitem_eq d l c : l ∈ labels d → getitem (setitem d l c) l = Ok c.
Proof. intros Hin. unfold getitem. by rewrite find_col_setitem_eq. Qed.

Lemma getitem_setitem_ne d l l' c :
  l ∈ labels d → l' ≠ l → getitem (setitem d l c) l' = getitem d l'.
Proof. intros Hin Hne. unfold getitem. by rewrite find_col_setitem_ne. Qed.

Lemma labels_setitem d l c : l ∈ labels d → labels (setitem d l c) = labels d.
Proof.
  intros Hin. unfold setitem, labels. simpl. rewrite bool_decide_eq_true_2 by done.
  rewrite <- list_fmap_compose. apply list_fmap_ext. intros i [l0 c0] _. simpl.
  by case_decide.
Qed.

(** ** What [kept_outside] gives *)

Lemma not_elem_of_pair (l a b : string) : l ≠ a → l ≠ b → l ∉ [a; b].
Proof.
  intros Ha Hb Hin. apply elem_of_cons in Hin as [?|Hin]; [done|].
  apply elem_of_cons in Hin as [?|Hin]; [done|]. by apply elem_of_nil in Hin.
Qed.

Lemma kept_outside_refl ls d : kept_outside ls d d.
Proof. split; [done|]. by apply Forall2_same_length_lookup_2; [|intros; simplify_eq]. Qed.

Lemma kept_outside_trans ls d1 d2 d3 :
  kept_outside ls d1 d2 → kept_outside ls d2 d3 → kept_outside ls d1 d3.
Proof.
  intros [Hn1 H1] [Hn2 H2]. split; [congruence|].
  revert H2. generalize (columns d3). induction H1 as [|x y k1 k2 [Hxy Hx] _ IH];
    intros k3 H2; inversion H2 as [|? z ? k3' [Hyz Hy] H2']; subst; constructor.
  - split; [congruence|]. intros Hnin. rewrite (Hx Hnin).
    apply Hy. by rewrite <- Hxy.
  - by apply IH.
Qed.

Lemma kept_outside_setitem ls d l c :
  l ∈ labels d → l ∈ ls → kept_outside ls d (setitem d l c).
Proof.
  intros Hin Hls. split; [done|]. unfold setitem. simpl.
  rewrite bool_decide_eq_true_2 by done. apply Forall2_fmap_r.
  apply Forall2_same_length_lookup_2; [done|]. intros i x y Hx Hy.
  simplify_eq. simpl. destruct (decide (x.1 = l)) as [Hl|Hl]; simpl; [|done].
  split; [done|]. intros Hnin. by rewrite Hl in Hnin.
Qed.

Lemma kept_outside_labels ls d d' : kept_outside ls d d' → labels d' = labels d.
Proof.
  intros [_ H]. unfold labels. induction H as [|x y k1 k2 [Hxy _] _ IH]; [done|].
  rewrite !fmap_cons. by rewrite IH, Hxy.
Qed.

Lemma kept_outside_lookup ls d d' i l c :
  kept_outside ls d d' → columns d !! i = Some (l, c) → l ∉ ls →
  columns d' !! i = Some (l, c).
Proof.
  intros [_ H] Hi Hl.
  destruct (Forall2_lookup_l _ _ _ _ _ H Hi) as (y & Hy & _ & Hkeep).
  rewrite Hy. f_equal. symmetry. by apply Hkeep.
Qed.

Lemma kept_outside_find_col ls d d' l :
  kept_outside ls d d' → l ∉ ls → find_col l (columns d') = find_col l (columns d).
Proof.
  intros [_ H] Hl. induction H as [|[l1 c1] [l2 c2] k1 k2 [Hxy Hx] _ IH]; [done|].
  simpl in *. subst l2. destruct (decide (l1 = l)) as [->|Hne]; [|done].
  specialize (Hx Hl). by simplify_eq.
Qed.

(** ** Claims on [apply_corrections] *)

#[local] Arguments getitem : simpl never.
#[local] Arguments setitem : simpl never.
#[local] Arguments series_abs : simpl never.
#[local] Arguments str_strip : simpl never.
#[local] Arguments apply_values_to_rename : simpl never.

(** Every step of [apply_corrections] that assigns to [self.df] keeps
    what is outside the two designated columns, whatever the outcome. *)
Lemma apply_corrections_kept cfg s d column_name abs_column :
  df s = Some d →
  ∃ r d', apply_corrections cfg column_name abs_column s
          = (r, mkState (Some d') (engine s))
    ∧ r ≠ OutOfFuel
    ∧ kept_outside [column_name; abs_column] d d'.
Proof.
  intros Hdf. destruct s as [o eng]. simpl in Hdf. subst o.
  set (ls := [column_name; abs_column]).
  unfold apply_corrections, mbind, M_bind, self_df, call, set_df. cbn.
  destruct (getitem d abs_column) as [sa|e1] eqn:Hg1; cbn;
    [|by eexists _, d; split_and!; [| |apply kept_outside_refl]].
  destruct (series_abs sa) as [a|e2] eqn:Ha; cbn;
    [|by eexists _, d; split_and!; [| |apply kept_outside_refl]].
  set (d1 := setitem d abs_column a).
  assert (K1 : kept_outside ls d d1).
  { apply kept_outside_setitem; [by eapply getitem_Ok_label | set_solver]. }
  destruct (getitem d1 column_name) as [sc|e3] eqn:Hg2; cbn;
    [|by eexists _, d1; split_and!].
  set (d2 := setitem d1 column_name (apply_values_to_rename cfg sc)).
  assert (K2 : kept_outside ls d d2).
  { apply kept_outside_trans with d1; [done|].
    apply kept_outside_setitem; [by eapply getitem_Ok_label | set_solver]. }
  destruct (getitem d2 column_name) as [sc'|e4] eqn:Hg3; cbn;
    [|by eexists _, d2; split_and!].
  destruct (str_strip sc') as [t|e5] eqn:Ht; cbn;
    [|by eexists _, d2; split_and!].
  eexists _, _. split_and!; [done..|].
  apply kept_outside_trans with d2; [done|].
  apply kept_outside_setitem; [by eapply getitem_Ok_label | set_solver].
Qed.

(** The run of [apply_corrections] on a string column and an integer
    column. *)
Lemma apply_corrections_run cfg s d column_name abs_column xs zs :
  df s = Some d →
  getitem d column_name = Ok (Object xs) →
  getitem d abs_column = Ok (Int64 zs) →
  ∃ d',
    apply_corrections cfg column_name abs_column s
      = (Return (), mkState (Some d') (engine s))
    ∧ getitem d' column_name
      = Ok (Object (corrected (values_to_rename cfg) <$> xs))
    ∧ getitem d' abs_column = Ok (Int64 ((λ z, wrap64 (Z.abs z)) <$> zs)).
Proof.
  intros Hdf Hcol Habs. destruct s as [o eng]. simpl in Hdf. subst o.
  assert (Hne : abs_column ≠ column_name) by (intros ->; congruence).
  pose proof (getitem_Ok_label _ _ _ Hcol) as Hcin.
  pose proof (getitem_Ok_label _ _ _ Habs) as Hain.
  unfold apply_corrections, mbind, M_bind, self_df, call, set_df. cbn.
  rewrite Habs. cbn. unfold series_abs at 1. cbn.
  set (a := Int64 ((λ z, wrap64 (Z.abs z)) <$> zs)).
  set (d1 := setitem d abs_column a).
  assert (Hl1 : labels d1 = labels d) by by apply labels_setitem.
  assert (Hg1 : getitem d1 column_name = Ok (Object xs)).
  { unfold d1. by rewrite getitem_setitem_ne. }
  rewrite Hg1. cbn.
  set (d2 := setitem d1 column_name (apply_values_to_rename cfg (Object xs))).
  assert (Hl2 : labels d2 = labels d1) by (apply labels_setitem; by rewrite Hl1).
  assert (Hg2 : getitem d2 column_name = Ok (apply_values_to_rename cfg (Object xs))).
  { unfold d2. rewrite getitem_setitem_eq; [done | by rewrite Hl1]. }
  rewrite Hg2. cbn.
  eexists. split; [done|].
  rewrite getitem_setitem_eq by by rewrite Hl2, Hl1.
  rewrite getitem_setitem_ne by (by rewrite ?Hl2, ?Hl1).
  unfold d2. rewrite getitem_setitem_ne by (by rewrite ?Hl1).
  unfold d1. rewrite getitem_setitem_eq by done.
  split; [|done]. do 2 f_equal. rewrite <- list_fmap_compose.
  apply list_fmap_ext. intros i v _. unfold corrected. simpl.
  by destruct (values_to_rename cfg !! v).
Qed.

(** C2. With a value column of strings [xs] and a magnitude column of
    integers, [apply_corrections] returns normally and the value column
    then holds, row by row, for the value [v]: the canonical value of
    the table if [v] is a key, [v] itself if not, stripped of leading
    and trailing whitespace in both cases. *)
Theorem apply_corrections_values cfg s d column_name abs_column xs zs :
  df s = Some d → NoDup (labels d) →
  getitem d column_name = Ok (Object xs) →
  getitem d abs_column = Ok (Int64 zs) →
  ∃ d',
    apply_corrections cfg column_name abs_column s
      = (Return (), mkState (Some d') (engine s))
    ∧ getitem d' column_name
      = Ok (Object ((λ v, strip (match values_to_rename cfg !! v with
                                 | Some canonical => canonical
                                 | None => v
                                 end)) <$> xs)).
Proof.
  intros Hdf _ Hcol Habs.
  destruct (apply_corrections_run cfg s d column_name abs_column xs zs)
    as (d' & Hrun & Hval & _); [done..|].
  by exists d'.
Qed.

(** C9. On a dataset that has both designated columns,
    [apply_corrections], whether it returns or raises, leaves in
    [self.df] a dataset with the same row count and the same labels in
    the same order, in which every column other than the two designated
    ones is the column it was, at the place it was. *)
Theorem apply_corrections_frame cfg s d column_name abs_column :
  df s = Some d → NoDup (labels d) →
  column_name ∈ labels d → abs_column ∈ labels d →
  ∃ r d',
    apply_corrections cfg column_name abs_column s
      = (r, mkState (Some d') (engine s))
    ∧ nrows d' = nrows d
    ∧ labels d' = labels d
    ∧ (∀ i l c, columns d !! i = Some (l, c) →
         l ≠ column_name → l ≠ abs_column → columns d' !! i = Some (l, c))
    ∧ (∀ l, l ≠ column_name → l ≠ abs_column → getitem d' l = getitem d l).
Proof.
  intros Hdf _ _ _.
  destruct (apply_corrections_kept cfg s d column_name abs_column Hdf)
    as (r & d' & Hrun & _ & Hkept).
  exists r, d'. split_and!; [done|apply Hkept|by eapply kept_outside_labels| |].
  - intros i l c Hi H1 H2. eapply kept_outside_lookup; [done..|].
    by apply not_elem_of_pair.
  - intros l H1 H2. unfold getitem.
    rewrite (kept_outside_find_col _ _ _ l Hkept); [done|].
    by apply not_elem_of_pair.
Qed.

(** ** Claims on ingestion *)

Lemma query_data_not_empty w e q d : query_data w e q = Ok d → empty d = false.
Proof.
  unfold query_data. destruct (connect w e); [|done].
  destruct (read_sql_query w e q) as [d0|]; [|done].
  destruct (empty d0) eqn:He; [done|]. by intros [= <-].
Qed.

Lemma query_data_empty w e q d :
  connect w e = Ok () → read_sql_query w e q = Ok d → nrows d = 0 →
  query_data w e q = Err (ValueError "The query returned an empty DataFrame.").
Proof.
  intros Hc Hq Hn. unfold query_data. rewrite Hc, Hq. unfold empty.
  by rewrite bool_decide_eq_true_2.
Qed.

(** C4. Whatever [ingest_sql_data] returns is not an empty dataset (it
    has a row and a column) and is what [self.df] then holds; and when
    the query succeeds with a result of zero rows, [ingest_sql_data]
    raises the [ValueError] of the empty result, so does [process], and
    [self.df] is what it was: [None] when the instance is fresh. *)
Theorem ingest_sql_data_never_empty w cfg s :
  (∀ d s', ingest_sql_data w cfg s = (Return d, s') →
     empty d = false ∧ nrows d ≠ 0 ∧ df s' = Some d)
  ∧ (∀ e d,
       engine s = Some e
       ∨ (engine s = None ∧ create_db_engine w (db_path cfg) = Ok e) →
       connect w e = Ok () →
       read_sql_query w e (sql_query cfg) = Ok d →
       nrows d = 0 →
       ingest_sql_data w cfg s
       = (Raise (ValueError "The query returned an empty DataFrame."),
          mkState (df s) (Some e))
       ∧ process w cfg s
         = (Raise (ValueError "The query returned an empty DataFrame."),
            mkState (df s) (Some e))
       ∧ (s = init → df (process w cfg s).2 = None)).
Proof.
  split.
  - intros d s' Hrun.
    assert (H : ∃ e, query_data w e (sql_query cfg) = Ok d ∧ df s' = Some d).
    { revert Hrun. destruct s as [o [e|]];
        unfold ingest_sql_data, mbind, M_bind, self_engine, call, set_engine,
          set_df, self_df; cbn.
      - destruct (query_data w e (sql_query cfg)) as [d0|] eqn:Hq; cbn; [|done].
        intros [= <- <-]. eauto.
      - destruct (create_db_engine w (db_path cfg)) as [e|]; cbn; [|done].
        destruct (query_data w e (sql_query cfg)) as [d0|] eqn:Hq; cbn; [|done].
        intros [= <- <-]. eauto. }
    destruct H as (e & Hq & Hdf). apply query_data_not_empty in Hq.
    split_and!; [done| |done]. intros Hn. unfold empty in Hq.
    by rewrite bool_decide_eq_true_2 in Hq.
  - intros e d He Hc Hq Hn.
    pose proof (query_data_empty w e _ d Hc Hq Hn) as Hqd.
    assert (Hrun : ingest_sql_data w cfg s
       = (Raise (ValueError "The query returned an empty DataFrame."),
          mkState (df s) (Some e))).
    { destruct s as [o eng]. simpl in *.
      unfold ingest_sql_data, mbind, M_bind, self_engine, call, set_engine,
        set_df, self_df; cbn.
      destruct He as [->|[-> Hce]]; cbn.
      - by rewrite Hqd.
      - rewrite Hce. cbn. by rewrite Hqd. }
    assert (Hproc : process w cfg s
       = (Raise (ValueError "The query returned an empty DataFrame."),
          mkState (df s) (Some e))).
    { unfold process, mbind at 1, M_bind at 1. by rewrite Hrun. }
    split; [done|]. split; [done|]. intros ->. by rewrite Hproc.
Qed.

(** ** The row count of [merge] *)

Lemma length_bind_le {A B} (g : A → list B) (n : nat) (l : list A) :
  (∀ x, x ∈ l → length (g x) ≤ n) → length (l ≫= g) ≤ length l * n.
Proof.
  induction l as [|x l IH]; intros Hg; [done|].
  rewrite bind_cons, length_app. simpl.
  pose proof (Hg x (list_elem_of_here x l)).
  assert (length (l ≫= g) ≤ length l * n); [|lia].
  apply IH. intros y Hy. apply Hg. by apply elem_of_cons; right.
Qed.

(** The right rows that match one key. *)
Lemma matches_length_le {K} `{EqDecision K} (f : nat → K) (k : K) (i : nat)
    (js : list nat) :
  length (js ≫= λ j, if decide (k = f j) then [(i, j)] else []) ≤ length js.
Proof.
  rewrite <- (Nat.mul_1_r (length js)). apply length_bind_le.
  intros j _. case_decide; simpl; lia.
Qed.

Lemma matches_length_unique {K} `{EqDecision K} (f : nat → K) (k : K) (i : nat)
    (js : list nat) :
  NoDup (f <$> js) →
  length (js ≫= λ j, if decide (k = f j) then [(i, j)] else []) ≤ 1.
Proof.
  induction js as [|j js IH]; intros Hnd; [simpl; lia|].
  rewrite fmap_cons in Hnd. apply NoDup_cons in Hnd as [Hj Hnd].
  rewrite bind_cons, length_app. case_decide as Hk; simpl.
  - assert (Hnone : length (js ≫= λ j, if decide (k = f j) then [(i, j)] else []) = 0);
      [|lia].
    clear IH Hnd. induction js as [|j' js IH]; [done|].
    rewrite bind_cons, length_app. rewrite fmap_cons in Hj.
    apply not_elem_of_cons in Hj as [Hne Hj].
    rewrite decide_False by congruence. simpl. by apply IH.
  - by apply IH.
Qed.

Lemma join_pairs_length_le l r keys :
  length (join_pairs l r keys) ≤ nrows l * nrows r.
Proof.
  unfold join_pairs.
  etrans; [apply (length_bind_le _ (nrows r))|by rewrite length_seq].
  intros i _.
  etrans; [apply (matches_length_le (row_key r keys))|by rewrite length_seq].
Qed.

Lemma join_pairs_length_unique l r keys :
  NoDup (row_key r keys <$> seq 0 (nrows r)) →
  length (join_pairs l r keys) ≤ nrows l.
Proof.
  intros Hnd. unfold join_pairs.
  etrans; [apply (length_bind_le _ 1)|rewrite length_seq; lia].
  intros i _.
  by apply (matches_length_unique (row_key r keys)).
Qed.

Lemma join_pairs_none l r keys :
  (∀ i j, i < nrows l → j < nrows r → row_key l keys i ≠ row_key r keys j) →
  join_pairs l r keys = [].
Proof.
  intros Hno. unfold join_pairs.
  assert (H : ∀ is_, (∀ i, i ∈ is_ → i < nrows l) →
            (is_ ≫= λ i, seq 0 (nrows r) ≫= λ j,
               if decide (row_key l keys i = row_key r keys j)
               then [(i, j)] else []) = []).
  { induction is_ as [|i is_ IH]; intros Hlt; [done|].
    rewrite bind_cons, IH, app_nil_r.
    - assert (Hi : i < nrows l) by (apply Hlt; apply list_elem_of_here).
      assert (G : ∀ js, (∀ j, j ∈ js → j < nrows r) →
                (js ≫= λ j, if decide (row_key l keys i = row_key r keys j)
                            then [(i, j)] else []) = []).
      { induction js as [|j js IHj]; intros Hj; [done|].
        rewrite bind_cons, IHj.
        - rewrite decide_False; [done|]. apply Hno; [done|].
          apply Hj, list_elem_of_here.
        - intros j' Hj'. apply Hj. by apply elem_of_cons; right. }
      apply G. intros j Hj. apply elem_of_seq in Hj. lia.
    - intros i' Hi'. apply Hlt. by apply elem_of_cons; right. }
  apply H. intros i Hi. apply elem_of_seq in Hi. lia.
Qed.

Lemma merge_nrows l r j :
  merge l r = Ok j → nrows j = length (join_pairs l r (shared l r)).
Proof.
  unfold merge. case_bool_decide; [done|].
  destruct (negb _); [done|].
  destruct (filter _ _); [|done]. by intros [= <-].
Qed.

(** ** Claims on [weather_station_mapping] *)

Lemma weather_station_mapping_run w cfg s d m :
  df s = Some d → read_csv w (weather_map_data cfg) = Ok m →
  weather_station_mapping w cfg s
  = match merge d m with
    | Ok j => (Return j, mkState (Some j) (engine s))
    | Err e => (Raise e, s)
    end.
Proof.
  intros Hdf Hm.
  unfold weather_station_mapping, mbind, M_bind, self_df, call, set_df,
    read_from_web_CSV.
  rewrite Hdf, Hm. by destruct (merge d m).
Qed.

(** C6, as the code has it. When [weather_station_mapping] returns, the
    joined dataset is what [self.df] holds and it has at most as many
    rows as the product of the row counts of the working dataset and of
    the mapping table; it has at most as many rows as the working
    dataset when no two rows of the mapping table agree on all the
    shared columns. *)
Theorem weather_station_mapping_row_count w cfg s d m j s' :
  df s = Some d → read_csv w (weather_map_data cfg) = Ok m →
  weather_station_mapping w cfg s = (Return j, s') →
  df s' = Some j
  ∧ nrows j ≤ nrows d * nrows m
  ∧ (NoDup (row_key m (shared d m) <$> seq 0 (nrows m)) → nrows j ≤ nrows d).
Proof.
  intros Hdf Hm. rewrite (weather_station_mapping_run w cfg s d m Hdf Hm).
  destruct (merge d m) as [j0|] eqn:Hmerge; [|done]. intros [= <- <-].
  apply merge_nrows in Hmerge. rewrite Hmerge. split_and!; [done| |].
  - apply join_pairs_length_le.
  - apply join_pairs_length_unique.
Qed.

(** C7, as the code has it. With no label shared by the working dataset
    and the mapping table, [weather_station_mapping] raises [MergeError]
    and [self.df] is untouched. With shared labels, unique on both
    sides and of matching dtypes, and no row of one side equal to a row
    of the other on the shared columns, it raises nothing: it returns,
    and stores in [self.df], a joined dataset of zero rows. *)
Theorem weather_station_mapping_errors w cfg s d m :
  df s = Some d → read_csv w (weather_map_data cfg) = Ok m →
  (shared d m = [] →
     weather_station_mapping w cfg s = (Raise MergeError, s))
  ∧ (shared d m ≠ [] → NoDup (shared d m) → NoDup (shared m d) →
     (∀ k, k ∈ shared d m → key_mismatch d m k = false) →
     (∀ i j, i < nrows d → j < nrows m →
        row_key d (shared d m) i ≠ row_key m (shared d m) j) →
     ∃ j, weather_station_mapping w cfg s
          = (Return j, mkState (Some j) (engine s))
        ∧ nrows j = 0 ∧ empty j = true).
Proof.
  intros Hdf Hm. rewrite (weather_station_mapping_run w cfg s d m Hdf Hm).
  split.
  - intros Hnone. unfold merge. by rewrite bool_decide_eq_true_2.
  - intros Hsome Hnd1 Hnd2 Hdt Hrows. unfold merge.
    rewrite bool_decide_eq_false_2 by done.
    rewrite !bool_decide_eq_true_2 by done. simpl.
    assert (Hf : filter (λ k, key_mismatch d m k = true) (shared d m) = []).
    { destruct (filter _ _) as [|k ks] eqn:Hfk; [done|].
      assert (Hk : k ∈ filter (λ k, key_mismatch d m k = true) (shared d m))
        by (rewrite Hfk; apply list_elem_of_here).
      apply list_elem_of_filter in Hk as [Hk1 Hk2].
      rewrite (Hdt k Hk2) in Hk1. done. }
    rewrite Hf, (join_pairs_none d m _ Hrows). simpl.
    eexists. by split_and!.
Qed.

(** ** The operations keep the columns on the index *)

Lemma aligned_relabel f d : aligned d → aligned (relabel f d).
Proof.
  unfold aligned, relabel. simpl. intros H. apply Forall_fmap.
  eapply Forall_impl; [exact H|]. by intros [l c].
Qed.

Lemma aligned_rename m d : aligned d → aligned (rename m d).
Proof. apply aligned_relabel. Qed.

Lemma Forall_filter_keep {A} (P Q : A → Prop) `{!∀ x, Decision (Q x)} (l : list A) :
  Forall P l → Forall P (filter Q l).
Proof.
  rewrite !Forall_forall. intros HP x Hx.
  apply list_elem_of_filter in Hx as [_ Hx]. by apply HP.
Qed.

Lemma aligned_drop l d d' : aligned d → drop l d = Ok d' → aligned d'.
Proof.
  unfold drop, aligned. case_bool_decide; [|done]. intros Hd [= <-]. simpl.
  by apply Forall_filter_keep.
Qed.

Lemma aligned_getitem d l c :
  aligned d → getitem d l = Ok c → series_len c = nrows d.
Proof.
  unfold aligned, getitem. induction 1 as [|[l0 c0] cols H0 _ IH]; simpl; [done|].
  case_decide; [by intros [= <-] | done].
Qed.

Lemma aligned_setitem d l c :
  aligned d → series_len c = nrows d → aligned (setitem d l c).
Proof.
  unfold aligned, setitem. simpl. intros Hd Hc. case_bool_decide.
  - apply Forall_fmap. eapply Forall_impl; [exact Hd|].
    intros [l0 c0] H0. simpl. by case_decide.
  - apply Forall_app. split; [done|]. by apply Forall_singleton.
Qed.

Lemma series_len_abs s a : series_abs s = Ok a → series_len a = series_len s.
Proof.
  destruct s as [zs|[|x xs]]; simpl; [| |done]; intros [= <-]; simpl; [|done].
  apply length_fmap.
Qed.

Lemma series_len_strip s t : str_strip s = Ok t → series_len t = series_len s.
Proof. destruct s; simpl; [done|]. intros [= <-]. simpl. apply length_fmap. Qed.

Lemma series_len_apply cfg s : series_len (apply_values_to_rename cfg s) = series_len s.
Proof. destruct s; simpl; [done|]. apply length_fmap. Qed.

Lemma length_take idx s :
  Forall (λ i, i < series_len s) idx → series_len (take idx s) = length idx.
Proof.
  assert (G : ∀ A (xs : list A),
            Forall (λ i, i < length xs) idx →
            length (omap (λ i, xs !! i) idx) = length idx).
  { intros A xs. induction 1 as [|i idx Hi _ IH]; [done|]. simpl.
    destruct (lookup_lt_is_Some_2 xs i Hi) as [x ->]. simpl. f_equal.
    exact IH. }
  destruct s; simpl; apply G.
Qed.

Lemma elem_of_join_pairs l r keys i j :
  (i, j) ∈ join_pairs l r keys → i < nrows l ∧ j < nrows r.
Proof.
  unfold join_pairs. intros (i' & Hin & Hi')%list_elem_of_bind.
  apply list_elem_of_bind in Hin as (j' & Hin & Hj').
  case_decide; [|by apply elem_of_nil in Hin].
  apply list_elem_of_singleton in Hin as [= -> ->].
  apply elem_of_seq in Hi', Hj'. lia.
Qed.

Lemma aligned_merge l r j : aligned l → aligned r → merge l r = Ok j → aligned j.
Proof.
  intros Hl Hr. unfold merge. case_bool_decide; [done|].
  destruct (negb _); [done|]. destruct (filter _ _); [|done].
  intros [= <-]. unfold aligned. simpl.
  set (pairs := join_pairs l r (shared l r)).
  assert (H1 : Forall (λ i, i < nrows l) pairs.*1).
  { apply Forall_fmap, Forall_forall. intros [i k] Hin.
    by apply elem_of_join_pairs in Hin as [? ?]. }
  assert (H2 : Forall (λ i, i < nrows r) pairs.*2).
  { apply Forall_fmap, Forall_forall. intros [i k] Hin.
    by apply elem_of_join_pairs in Hin as [? ?]. }
  apply Forall_app. split; apply Forall_fmap.
  - eapply Forall_impl; [exact Hl|]. intros [l0 c0] H0. simpl in *.
    rewrite length_take, length_fmap; [done|]. by rewrite H0.
  - apply Forall_filter_keep. eapply Forall_impl; [exact Hr|].
    intros [l0 c0] H0. simpl in *.
    rewrite length_take, length_fmap; [done|]. by rewrite H0.
Qed.

Lemma apply_corrections_aligned cfg s d column_name abs_column r s' :
  df s = Some d → aligned d →
  apply_corrections cfg column_name abs_column s = (r, s') →
  ∃ d', df s' = Some d' ∧ aligned d'.
Proof.
  intros Hdf Hd. destruct s as [o eng]. simpl in Hdf. subst o.
  unfold apply_corrections, mbind, M_bind, self_df, call, set_df. cbn.
  destruct (getitem d abs_column) as [sa|e1] eqn:Hg1; cbn;
    [|intros [= <- <-]; eauto].
  destruct (series_abs sa) as [a|e2] eqn:Ha; cbn; [|intros [= <- <-]; eauto].
  set (d1 := setitem d abs_column a).
  assert (A1 : aligned d1).
  { apply aligned_setitem; [done|]. rewrite (series_len_abs _ _ Ha).
    by eapply aligned_getitem. }
  destruct (getitem d1 column_name) as [sc|e3] eqn:Hg2; cbn;
    [|intros [= <- <-]; eauto].
  set (d2 := setitem d1 column_name (apply_values_to_rename cfg sc)).
  assert (A2 : aligned d2).
  { apply aligned_setitem; [done|]. rewrite series_len_apply.
    by eapply aligned_getitem. }
  destruct (getitem d2 column_name) as [sc'|e4] eqn:Hg3; cbn;
    [|intros [= <- <-]; eauto].
  destruct (str_strip sc') as [t|e5] eqn:Ht; cbn; [|intros [= <- <-]; eauto].
  intros [= <- <-]. eexists. split; [done|].
  apply aligned_setitem; [done|]. rewrite (series_len_strip _ _ Ht).
  by eapply aligned_getitem.
Qed.

(** ** Claims on [process] *)

Lemma process_split w cfg s :
  process w cfg s = (process_until_join w cfg;; drop_unnamed) s.
Proof.
  unfold process, process_until_join, mbind, M_bind.
  destruct (ingest_sql_data w cfg s) as [[?|?|] s1]; [|done..].
  destruct (rename_columns cfg s1) as [[?|?|] s2]; [|done..].
  destruct (apply_corrections cfg "Crop_type" "Elevation" s2) as [[?|?|] s3]; [|done..].
  by destruct (weather_station_mapping w cfg s3) as [[?|?|] s4].
Qed.

Lemma weather_station_mapping_returns w cfg s j s' :
  weather_station_mapping w cfg s = (Return j, s') → df s' = Some j.
Proof.
  unfold weather_station_mapping, mbind, M_bind, self_df, call, set_df.
  destruct (df s); [|done].
  destruct (read_from_web_CSV w (weather_map_data cfg)); [|done].
  destruct (merge _ _); [|done]. simpl. by intros [= <- <-].
Qed.

Lemma process_until_join_returns w cfg s j s' :
  process_until_join w cfg s = (Return j, s') → df s' = Some j.
Proof.
  unfold process_until_join, mbind, M_bind.
  destruct (ingest_sql_data w cfg s) as [[?|?|] s1]; [|done..].
  destruct (rename_columns cfg s1) as [[?|?|] s2]; [|done..].
  destruct (apply_corrections cfg "Crop_type" "Elevation" s2) as [[?|?|] s3]; [|done..].
  apply weather_station_mapping_returns.
Qed.

(** C10. When the four steps before the final [drop] have returned,
    with the joined dataset in [self.df]: if that dataset has a column
    labelled ["Unnamed: 0"], [process] returns and leaves in [self.df]
    the joined dataset without that column, every other column and the
    rows as they were; if it has none, [process] raises [KeyError] and
    returns no dataset. *)
Theorem process_drops_unnamed w cfg s j s4 :
  process_until_join w cfg s = (Return j, s4) →
  df s4 = Some j
  ∧ ("Unnamed: 0" ∈ labels j →
       ∃ out, process w cfg s = (Return (), mkState (Some out) (engine s4))
         ∧ ("Unnamed: 0" ∉ labels out)
         ∧ columns out = filter (λ c, c.1 ≠ "Unnamed: 0") (columns j)
         ∧ nrows out = nrows j)
  ∧ ("Unnamed: 0" ∉ labels j →
       process w cfg s = (Raise (KeyError "Unnamed: 0"), s4)).
Proof.
  intros Hrun. pose proof (process_until_join_returns _ _ _ _ _ Hrun) as Hdf.
  split; [done|].
  assert (Hp : process w cfg s = drop_unnamed s4).
  { rewrite process_split. unfold mbind, M_bind. by rewrite Hrun. }
  rewrite Hp.
  unfold drop_unnamed, mbind, M_bind, self_df, call, set_df, drop.
  rewrite Hdf. split; intros Hin.
  - rewrite bool_decide_eq_true_2 by done. eexists. split_and!; [done| |done..].
    unfold labels. simpl. intros (c & Hc1 & Hc2)%list_elem_of_fmap.
    apply list_elem_of_filter in Hc2 as [Hc2 _]. by apply Hc2.
  - by rewrite bool_decide_eq_false_2.
Qed.

(** * The claims at concrete inputs *)

Import Examples.

(** The pair [{Field_ID: Plot_ID}] on the columns
    [Field_ID, Plot_ID, Elevation]. *)
Example rename_columns_plots :
  rename_columns plots_config (holding plots)
  = (Return (),
     holding (mkDF 2 [("Plot_ID", Int64 [1; 2]%Z); ("Field_ID", Int64 [7; 8]%Z);
                      ("Elevation", Int64 [-430; 12]%Z)])).
Proof. by vm_compute. Qed.

Lemma rename_columns_swaps_witness :
  "Field_ID" ∈ labels plots ∧ "Plot_ID" ∈ labels plots
  ∧ ∃ d', rename_columns plots_config (holding plots) = (Return (), holding d')
      ∧ getitem d' "Plot_ID" = getitem plots "Field_ID"
      ∧ getitem d' "Field_ID" = getitem plots "Plot_ID".
Proof.
  assert (Ha : "Field_ID" ∈ labels plots) by compute_done.
  assert (Hb : "Plot_ID" ∈ labels plots) by compute_done.
  split; [exact Ha|]. split; [exact Hb|].
  destruct (rename_columns_swaps plots_config (holding plots) plots
              "Field_ID" "Plot_ID" [] eq_refl eq_refl Ha Hb)
    as (d' & temp & Hrun & _ & _ & _ & _ & _ & _ & H1 & H2 & _).
  exists d'. split; [exact Hrun|]. split; [exact H1 | exact H2].
Defined.

Lemma rename_columns_involutive_witness :
  "Field_ID" ∈ labels plots ∧ "Plot_ID" ∈ labels plots
  ∧ (rename_columns plots_config;; rename_columns plots_config) (holding plots)
    = (Return (), holding plots).
Proof.
  assert (Ha : "Field_ID" ∈ labels plots) by compute_done.
  assert (Hb : "Plot_ID" ∈ labels plots) by compute_done.
  split; [exact Ha|]. split; [exact Hb|].
  exact (rename_columns_involutive plots_config (holding plots) plots
           "Field_ID" "Plot_ID" [] eq_refl eq_refl Ha Hb).
Defined.

(** C8 as stated fails: without the column [Field_ID], the pair
    [{Field_ID: Plot_ID}] raises nothing and relabels [Plot_ID]. *)
Lemma rename_columns_missing_column_counterexample :
  ("Field_ID" ∉ labels plots_no_field)
  ∧ rename_columns plots_config (holding plots_no_field)
    = (Return (),
       holding (mkDF 2 [("Field_ID", Int64 [7; 8]%Z);
                        ("Elevation", Int64 [-430; 12]%Z)]))
  ∧ ¬ ∃ e s', rename_columns plots_config (holding plots_no_field) = (Raise e, s').
Proof.
  assert (Hrun : rename_columns plots_config (holding plots_no_field)
    = (Return (),
       holding (mkDF 2 [("Field_ID", Int64 [7; 8]%Z);
                        ("Elevation", Int64 [-430; 12]%Z)])))
    by by vm_compute.
  split; [compute_done|]. split; [exact Hrun|].
  intros (e & s' & Hraise). rewrite Hrun in Hraise. discriminate Hraise.
Qed.

Lemma rename_columns_missing_column_witness :
  ¬ ("Field_ID" ∈ labels plots_no_field ∧ "Plot_ID" ∈ labels plots_no_field)
  ∧ ∃ d', rename_columns plots_config (holding plots_no_field)
          = (Return (), holding d')
      ∧ nrows d' = nrows plots_no_field
      ∧ (columns d').*2 = (columns plots_no_field).*2.
Proof.
  assert (Hn : ¬ ("Field_ID" ∈ labels plots_no_field
                  ∧ "Plot_ID" ∈ labels plots_no_field)) by compute_done.
  split; [exact Hn|].
  destruct (rename_columns_missing_column plots_config (holding plots_no_field)
              plots_no_field "Field_ID" "Plot_ID" [] eq_refl eq_refl Hn)
    as (d' & temp & Hrun & _ & H1 & H2 & _).
  exists d'. split; [exact Hrun|]. split; [exact H1 | exact H2].
Defined.

(** The row of the scenario through the correction step. *)
Lemma apply_corrections_values_witness :
  NoDup (labels cassaval_row)
  ∧ getitem cassaval_row "Crop_type" = Ok (Object [" cassaval "])
  ∧ getitem cassaval_row "Elevation" = Ok (Int64 [-430]%Z)
  ∧ ∃ d', apply_corrections survey_config "Crop_type" "Elevation"
            (holding cassaval_row) = (Return (), holding d')
      ∧ getitem d' "Crop_type" = Ok (Object ["cassaval"]).
Proof.
  assert (Hnd : NoDup (labels cassaval_row)) by compute_done.
  split; [exact Hnd|]. split; [reflexivity|]. split; [reflexivity|].
  destruct (apply_corrections_values survey_config (holding cassaval_row)
              cassaval_row "Crop_type" "Elevation" [" cassaval "] [-430]%Z
              eq_refl Hnd eq_refl eq_refl) as (d' & Hrun & Hval).
  exists d'. split; [exact Hrun | exact Hval].
Defined.

(** A hit, a miss on a padded key, a value that is only stripped and a
    value left as it is; the least [int64] is its own absolute value. *)
Example apply_corrections_crops :
  apply_corrections survey_config "Crop_type" "Elevation" (holding crops)
  = (Return (),
     holding (mkDF 4 [("Elevation", Int64 [5; 0; 3; -9223372036854775808]%Z);
                      ("Crop_type", Object ["cassava"; "cassaval"; "tea"; "maize"])])).
Proof. by vm_compute. Qed.

(** C3 as stated fails: the value [" cassaval "] is looked up before it
    is stripped, it is no key of the table, and what the column holds
    after the correction step is not ["cassava"]. *)
Lemma apply_corrections_cassaval_counterexample :
  ∃ d', apply_corrections survey_config "Crop_type" "Elevation"
          (holding cassaval_row) = (Return (), holding d')
    ∧ getitem d' "Elevation" = Ok (Int64 [430]%Z)
    ∧ getitem d' "Crop_type" ≠ Ok (Object ["cassava"]).
Proof.
  eexists. split; [by vm_compute|]. split; [by vm_compute|].
  vm_compute. discriminate.
Qed.

(** C3, as the code has it. For the row
    [{Field_ID: 1, Elevation: -430, Crop_type: " cassaval "}] and the
    table [{"cassaval": "cassava"}], after the correction step the row
    has [Elevation] 430 and [Crop_type] exactly ["cassaval"], and
    [Field_ID] 1 as before. *)
Theorem apply_corrections_cassaval pair eng :
  ∃ d', apply_corrections (config pair) "Crop_type" "Elevation"
          (mkState (Some cassaval_row) eng)
        = (Return (), mkState (Some d') eng)
    ∧ getitem d' "Elevation" = Ok (Int64 [430]%Z)
    ∧ getitem d' "Crop_type" = Ok (Object ["cassaval"])
    ∧ getitem d' "Field_ID" = Ok (Int64 [1]%Z)
    ∧ nrows d' = 1.
Proof.
  exists (mkDF 1 [("Field_ID", Int64 [1]%Z); ("Elevation", Int64 [430]%Z);
                  ("Crop_type", Object ["cassaval"])]).
  split_and!; by vm_compute.
Qed.

(** The whole of [process] on a query result with that row: the value
    comes out as ["cassaval"]. *)
Example process_survey :
  process (world survey stations) survey_config init
  = (Return (),
     mkState
       (Some (mkDF 2 [("Field_ID", Int64 [1; 2]%Z); ("Elevation", Int64 [430; 12]%Z);
                      ("Crop_type", Object ["cassaval"; "tea"]);
                      ("Annual_yield", Int64 [3; 4]%Z);
                      ("Weather_station", Int64 [4; 0]%Z)]))
       (Some survey_engine)).
Proof. by vm_compute. Qed.

Lemma apply_corrections_frame_witness :
  NoDup (labels cassaval_row)
  ∧ "Crop_type" ∈ labels cassaval_row ∧ "Elevation" ∈ labels cassaval_row
  ∧ ∃ r d', apply_corrections survey_config "Crop_type" "Elevation"
              (holding cassaval_row) = (r, holding d')
      ∧ nrows d' = nrows cassaval_row
      ∧ labels d' = labels cassaval_row
      ∧ getitem d' "Field_ID" = getitem cassaval_row "Field_ID".
Proof.
  assert (Hnd : NoDup (labels cassaval_row)) by compute_done.
  assert (Hc : "Crop_type" ∈ labels cassaval_row) by compute_done.
  assert (Ha : "Elevation" ∈ labels cassaval_row) by compute_done.
  split; [exact Hnd|]. split; [exact Hc|]. split; [exact Ha|].
  destruct (apply_corrections_frame survey_config (holding cassaval_row)
              cassaval_row "Crop_type" "Elevation" eq_refl Hnd Hc Ha)
    as (r & d' & Hrun & Hn & Hl & _ & Hg).
  exists r, d'. split; [exact Hrun|]. split; [exact Hn|]. split; [exact Hl|].
  apply Hg; discriminate.
Defined.

(** A query that returns no row. *)
Lemma ingest_sql_data_never_empty_witness :
  nrows survey_no_rows = 0
  ∧ ingest_sql_data (world survey_no_rows stations) survey_config init
    = (Raise (ValueError "The query returned an empty DataFrame."),
       mkState None (Some survey_engine))
  ∧ process (world survey_no_rows stations) survey_config init
    = (Raise (ValueError "The query returned an empty DataFrame."),
       mkState None (Some survey_engine))
  ∧ df (process (world survey_no_rows stations) survey_config init).2 = None.
Proof.
  split; [reflexivity|].
  destruct (ingest_sql_data_never_empty (world survey_no_rows stations)
              survey_config init) as [_ H].
  destruct (H survey_engine survey_no_rows
              (or_intror (conj eq_refl eq_refl)) eq_refl eq_refl eq_refl)
    as (H1 & H2 & H3).
  split; [exact H1|]. split; [exact H2 | exact (H3 eq_refl)].
Defined.

(** C6 as stated fails: with two stations mapped to one field, the join
    has more rows than the working dataset. *)
Lemma weather_station_mapping_row_count_counterexample :
  ∃ j, weather_station_mapping (world survey stations_twice) survey_config
         (holding survey) = (Return j, holding j)
    ∧ nrows survey = 2 ∧ nrows j = 3 ∧ ¬ nrows j ≤ nrows survey.
Proof.
  eexists. split; [by vm_compute|]. split; [done|]. split; [done|].
  vm_compute. lia.
Qed.

Lemma weather_station_mapping_row_count_witness :
  NoDup (row_key stations (shared survey stations) <$> seq 0 (nrows stations))
  ∧ ∃ j, weather_station_mapping (world survey stations) survey_config
           (holding survey) = (Return j, holding j)
      ∧ nrows j ≤ nrows survey * nrows stations
      ∧ nrows j ≤ nrows survey.
Proof.
  assert (Hnd : NoDup (row_key stations (shared survey stations)
                         <$> seq 0 (nrows stations))) by compute_done.
  split; [exact Hnd|].
  eexists. split; [vm_compute; reflexivity|].
  edestruct (weather_station_mapping_row_count (world survey stations)
               survey_config (holding survey) survey stations)
    as (_ & Hprod & Hle); [reflexivity | reflexivity | vm_compute; reflexivity |].
  split; [exact Hprod | exact (Hle Hnd)].
Defined.

(** C7 as stated fails: when no field of the mapping table is a field of
    the working dataset, the join raises nothing and the joined dataset
    has no row. *)
Lemma weather_station_mapping_errors_counterexample :
  ∃ j, weather_station_mapping (world survey stations_elsewhere) survey_config
         (holding survey) = (Return j, holding j)
    ∧ nrows j = 0 ∧ empty j = true
    ∧ ¬ ∃ e s', weather_station_mapping (world survey stations_elsewhere)
                  survey_config (holding survey) = (Raise e, s').
Proof.
  eexists. split; [by vm_compute|]. split; [done|]. split; [done|].
  intros (e & s' & Hraise). vm_compute in Hraise. discriminate Hraise.
Qed.

Lemma weather_station_mapping_errors_witness :
  shared survey stations_unrelated = []
  ∧ weather_station_mapping (world survey stations_unrelated) survey_config
      (holding survey) = (Raise MergeError, holding survey)
  ∧ shared survey stations_elsewhere ≠ []
  ∧ ∃ j, weather_station_mapping (world survey stations_elsewhere) survey_config
           (holding survey) = (Return j, holding j)
      ∧ nrows j = 0.
Proof.
  assert (Hnone : shared survey stations_unrelated = []) by reflexivity.
  assert (Hsome : shared survey stations_elsewhere ≠ []) by compute_done.
  split; [exact Hnone|]. split.
  { exact (proj1 (weather_station_mapping_errors (world survey stations_unrelated)
                    survey_config (holding survey) survey stations_unrelated
                    eq_refl eq_refl) Hnone). }
  split; [exact Hsome|].
  destruct (proj2 (weather_station_mapping_errors (world survey stations_elsewhere)
                     survey_config (holding survey) survey stations_elsewhere
                     eq_refl eq_refl) Hsome) as (j & Hrun & Hn & _).
  - compute_done.
  - compute_done.
  - apply Forall_forall. compute_done.
  - intros [|[|i]] [|[|k]] Hi Hk; try (cbn in Hi, Hk; lia); compute_done.
  - exists j. split; [exact Hrun | exact Hn].
Defined.

Lemma process_drops_unnamed_witness :
  (∃ out, process (world survey stations) survey_config init
          = (Return (), mkState (Some out) (Some survey_engine))
      ∧ "Unnamed: 0" ∉ labels out)
  ∧ ∃ s4, process (world survey_no_index stations) survey_config init
          = (Raise (KeyError "Unnamed: 0"), s4).
Proof.
  split.
  - edestruct (process_drops_unnamed (world survey stations) survey_config init)
      as (_ & Hyes & _); [vm_compute; reflexivity|].
    destruct Hyes as (out & Hrun & Hgone & _); [compute_done|].
    exists out. split; [exact Hrun | exact Hgone].
  - edestruct (process_drops_unnamed (world survey_no_index stations)
                 survey_config init)
      as (_ & _ & Hno); [vm_compute; reflexivity|].
    eexists. apply Hno. compute_done.
Defined.

(** * Further properties of the code *)

(** ** [create_db_engine] and [query_data] *)

(** Two answers recorded for one call are one answer. *)
Ltac same_call :=
  repeat match goal with
         | H1 : ?x = _, H2 : ?x = _ |- _ =>
             rewrite H1 in H2; try discriminate H2; simplify_eq
         end.

(** [create_db_engine] raises exactly when [create_engine] or the test
    connection raises; what it raises is what was raised there, except
    that an [ImportError] comes out as [UnboundLocalError], because the
    handler of [ImportError] runs [raise e] with [e] unbound. So
    [ImportError] is never what the caller sees. *)
Theorem create_db_engine_raises w path e :
  (create_db_engine w path = Err e ↔
   ∃ c, (create_engine w path = Err c
         ∨ ∃ g, create_engine w path = Ok g ∧ connect w g = Err c)
        ∧ e = if decide (c = ImportError) then UnboundLocalError else c)
  ∧ create_db_engine w path ≠ Err ImportError.
Proof.
  assert (Hh : ∀ A c, @create_db_engine_handlers A c
            = Err (if decide (c = ImportError) then UnboundLocalError else c)).
  { intros A c. by destruct c. }
  assert (Hne : ∀ c, (if decide (c = ImportError) then UnboundLocalError else c)
                     ≠ ImportError).
  { intros c. by case_decide. }
  unfold create_db_engine. split.
  - destruct (create_engine w path) as [g|c] eqn:Hc.
    + destruct (connect w g) as [u|c] eqn:Hg.
      * split; [done|]. intros (c & [?|(g' & ? & ?)] & _); simplify_eq; same_call.
      * rewrite Hh. split.
        -- intros [= <-]. exists c. split; [|done]. right. by exists g.
        -- intros (c' & [?|(g' & ? & ?)] & ->); simplify_eq; same_call; done.
    + rewrite Hh. split.
      * intros [= <-]. exists c. split; [by left | done].
      * intros (c' & [?|(g' & ? & ?)] & ->); simplify_eq; same_call; done.
  - destruct (create_engine w path) as [g|c]; [destruct (connect w g) as [u|c]|];
      rewrite ?Hh; [done| |]; intros [= H]; by apply Hne in H.
Qed.

(** [create_db_engine] returns an engine exactly when [create_engine]
    gave that engine and a connection to it could be opened. *)
Theorem create_db_engine_returns w path g :
  create_db_engine w path = Ok g ↔
  create_engine w path = Ok g ∧ connect w g = Ok ().
Proof.
  unfold create_db_engine.
  destruct (create_engine w path) as [g'|c] eqn:Hc.
  - destruct (connect w g') as [[]|c] eqn:Hg.
    + split; [by intros [= <-] | by intros [[= <-] _]].
    + split; [by destruct c | intros [[= <-] ?]; congruence].
  - split; [by destruct c | by intros [? _]].
Qed.

(** [query_data] returns a dataset exactly when the connection opens and
    the query answers with that dataset, which has at least one row and
    at least one column; it raises [x] exactly when the connection or
    the query raised [x], or when [x] is the [ValueError] of the empty
    result and the answer had no row or no column. *)
Theorem query_data_outcomes w e q :
  (∀ d, query_data w e q = Ok d ↔
     connect w e = Ok () ∧ read_sql_query w e q = Ok d
     ∧ nrows d ≠ 0 ∧ columns d ≠ [])
  ∧ (∀ x, query_data w e q = Err x ↔
       connect w e = Err x
       ∨ (connect w e = Ok ()
          ∧ (read_sql_query w e q = Err x
             ∨ ∃ d, read_sql_query w e q = Ok d
                    ∧ (nrows d = 0 ∨ columns d = [])
                    ∧ x = ValueError "The query returned an empty DataFrame."))).
Proof.
  assert (Hempty : ∀ d, empty d = true ↔ nrows d = 0 ∨ columns d = []).
  { intros d. unfold empty. rewrite orb_true_iff, !bool_decide_eq_true. done. }
  assert (Hfull : ∀ d, empty d = false ↔ nrows d ≠ 0 ∧ columns d ≠ []).
  { intros d. unfold empty. rewrite orb_false_iff, !bool_decide_eq_false. done. }
  unfold query_data. split.
  - intros d. destruct (connect w e) as [[]|c]; [|split; [done | by intros [? _]]].
    destruct (read_sql_query w e q) as [d0|c];
      [|split; [done | by intros (_ & ? & _)]].
    destruct (empty d0) eqn:He.
    + split; [done|]. intros (_ & [= <-] & Hn & Hc).
      apply Hempty in He. tauto.
    + apply Hfull in He. split; [by intros [= <-] | by intros (_ & [= <-] & _)].
  - intros x. destruct (connect w e) as [[]|c].
    2:{ split; [intros [= <-]; by left | by intros [[= <-]|[? _]]]. }
    destruct (read_sql_query w e q) as [d0|c].
    2:{ split; [intros [= <-]; right; split; [done | by left]|].
        intros [?|[_ [[= <-]|(d & ? & _)]]]; done. }
    destruct (empty d0) eqn:He.
    + apply Hempty in He. split.
      * intros [= <-]. right. split; [done|]. right. by exists d0.
      * intros [?|[_ [?|(d & [= <-] & _ & ->)]]]; done.
    + apply Hfull in He. split; [done|].
      intros [?|[_ [?|(d & [= <-] & Hd & _)]]]; [done..|]. tauto.
Qed.

(** ** [ingest_sql_data] *)

Lemma ingest_sql_data_run w cfg s :
  ingest_sql_data w cfg s =
  match engine s with
  | Some e =>
      match query_data w e (sql_query cfg) with
      | Ok d => (Return d, mkState (Some d) (Some e))
      | Err x => (Raise x, s)
      end
  | None =>
      match create_db_engine w (db_path cfg) with
      | Err x => (Raise x, s)
      | Ok e =>
          match query_data w e (sql_query cfg) with
          | Ok d => (Return d, mkState (Some d) (Some e))
          | Err x => (Raise x, mkState (df s) (Some e))
          end
      end
  end.
Proof.
  destruct s as [o [e|]];
    unfold ingest_sql_data, mbind, M_bind, self_engine, call, set_engine,
      set_df, self_df; cbn.
  - by destruct (query_data w e (sql_query cfg)).
  - destruct (create_db_engine w (db_path cfg)) as [e|]; cbn; [|done].
    by destruct (query_data w e (sql_query cfg)).
Qed.

(** [ingest_sql_data] either returns a dataset that is not empty, stores
    it in [self.df] and leaves an engine in [self.engine], or raises
    and leaves [self.df] as it was. An engine that is there stays; when
    there is none, [self.engine] is the engine [create_db_engine] made,
    also when the query then fails, and stays [None] when it made
    none. *)
Theorem ingest_sql_data_outcomes w cfg s :
  ∃ r s', ingest_sql_data w cfg s = (r, s')
    ∧ match r with
      | Return d => df s' = Some d ∧ is_Some (engine s') ∧ empty d = false
      | Raise _ => df s' = df s
      | OutOfFuel => False
      end
    ∧ (∀ e, engine s = Some e → engine s' = Some e)
    ∧ (engine s = None →
       engine s' = match create_db_engine w (db_path cfg) with
                   | Ok g => Some g
                   | Err _ => None
                   end).
Proof.
  rewrite ingest_sql_data_run. destruct s as [o [e|]]; simpl.
  - destruct (query_data w e (sql_query cfg)) as [d|x] eqn:Hq;
      eexists _, _; (split; [done|]); simpl; split_and!; try done.
    by eapply query_data_not_empty.
  - destruct (create_db_engine w (db_path cfg)) as [e|x];
      [|by eexists _, _; split_and!].
    destruct (query_data w e (sql_query cfg)) as [d|x] eqn:Hq;
      eexists _, _; (split; [done|]); simpl; split_and!; try done.
    by eapply query_data_not_empty.
Qed.

(** With an engine in [self.engine], [ingest_sql_data] does not call
    [create_engine]: two worlds that open connections to that engine and
    answer the query alike give the same run, whatever their
    [create_engine] does. *)
Theorem ingest_sql_data_reuses_engine w1 w2 cfg s e :
  engine s = Some e →
  connect w1 e = connect w2 e →
  read_sql_query w1 e (sql_query cfg) = read_sql_query w2 e (sql_query cfg) →
  ingest_sql_data w1 cfg s = ingest_sql_data w2 cfg s.
Proof.
  intros He Hc Hq. rewrite !ingest_sql_data_run, He.
  unfold query_data. by rewrite Hc, Hq.
Qed.


(** ** [self.engine] belongs to [ingest_sql_data] *)

Lemma ingest_sql_data_engine w cfg s e :
  engine s = Some e → engine (ingest_sql_data w cfg s).2 = Some e.
Proof.
  intros He. rewrite ingest_sql_data_run, He.
  by destruct (query_data w e (sql_query cfg)).
Qed.

Lemma rename_columns_engine cfg s : engine (rename_columns cfg s).2 = engine s.
Proof.
  destruct (columns_to_rename cfg) as [|[a b] rest] eqn:Hcfg.
  - unfold rename_columns, mbind, M_bind, first_item. by rewrite Hcfg.
  - destruct (df s) as [d|] eqn:Hdf.
    + destruct (rename_columns_run cfg s d a b rest Hcfg Hdf) as (t & _ & _ & ->).
      done.
    + unfold rename_columns, mbind, M_bind, first_item, self_df.
      rewrite Hcfg. simpl. by rewrite Hdf.
Qed.

Lemma apply_corrections_engine cfg c a s :
  engine (apply_corrections cfg c a s).2 = engine s.
Proof.
  destruct (df s) as [d|] eqn:Hdf.
  - destruct (apply_corrections_kept cfg s d c a Hdf) as (r & d' & -> & _). done.
  - unfold apply_corrections, mbind, M_bind, self_df. by rewrite Hdf.
Qed.

Lemma weather_station_mapping_engine w cfg s :
  engine (weather_station_mapping w cfg s).2 = engine s.
Proof.
  unfold weather_station_mapping, mbind, M_bind, self_df, call, set_df.
  destruct (df s); [|done].
  destruct (read_from_web_CSV w (weather_map_data cfg)); [|done].
  by destruct (merge _ _).
Qed.

Lemma drop_unnamed_engine s : engine (drop_unnamed s).2 = engine s.
Proof.
  unfold drop_unnamed, mbind, M_bind, self_df, call, set_df.
  destruct (df s); [|done]. by destruct (drop _ _).
Qed.

(** No method but [ingest_sql_data] assigns [self.engine]: whatever
    their outcome, [rename_columns], [apply_corrections],
    [weather_station_mapping] and the final [drop] leave it as it was;
    and through the whole of [process] an engine that is there stays. *)
Theorem engine_kept w cfg s :
  engine (rename_columns cfg s).2 = engine s
  ∧ (∀ c a, engine (apply_corrections cfg c a s).2 = engine s)
  ∧ engine (weather_station_mapping w cfg s).2 = engine s
  ∧ engine (drop_unnamed s).2 = engine s
  ∧ (∀ e, engine s = Some e → engine (process w cfg s).2 = Some e).
Proof.
  split_and!.
  - apply rename_columns_engine.
  - intros c a. apply apply_corrections_engine.
  - apply weather_station_mapping_engine.
  - apply drop_unnamed_engine.
  - intros e He.
    pose proof (ingest_sql_data_engine w cfg s e He) as Hk.
    unfold process, mbind, M_bind.
    destruct (ingest_sql_data w cfg s) as [[d1| |] s1]; simpl in Hk |- *;
      [|done..].
    pose proof (rename_columns_engine cfg s1) as H2.
    destruct (rename_columns cfg s1) as [[?| |] s2]; simpl in H2 |- *;
      [|congruence..].
    pose proof (apply_corrections_engine cfg "Crop_type" "Elevation" s2) as H3.
    destruct (apply_corrections cfg "Crop_type" "Elevation" s2) as [[?| |] s3];
      simpl in H3 |- *; [|congruence..].
    pose proof (weather_station_mapping_engine w cfg s3) as H4.
    destruct (weather_station_mapping w cfg s3) as [[?| |] s4];
      simpl in H4 |- *; [|congruence..].
    rewrite drop_unnamed_engine. congruence.
Qed.

(** ** [rename_columns] beyond the claims *)

Lemma string_app_assoc (a b c : string) : (a +:+ b) +:+ c = a +:+ (b +:+ c).
Proof.
  induction a as [|x a IH]; [reflexivity|].
  change (String x ((a +:+ b) +:+ c) = String x (a +:+ (b +:+ c))).
  by f_equal.
Qed.

Lemma candidate_S k : candidate (S k) = candidate k +:+ "_".
Proof.
  unfold candidate. change (underscores (S k)) with (underscores k +:+ "_").
  by rewrite string_app_assoc.
Qed.

Lemma while_temp_name_least cols fuel k0 t :
  while_temp_name fuel cols (candidate k0) = Some t →
  ∃ k, k0 ≤ k ∧ t = candidate k ∧ (t ∉ cols)
       ∧ ∀ k', k0 ≤ k' < k → candidate k' ∈ cols.
Proof.
  revert k0. induction fuel as [|fuel IH]; intros k0; [done|]. simpl.
  case_bool_decide as Hin.
  - rewrite <- candidate_S. intros (k & Hk & -> & Hout & Hbelow)%IH.
    exists k. split_and!; [lia|done..|]. intros k' Hk'.
    destruct (decide (k' = k0)) as [->|]; [done|]. apply Hbelow. lia.
  - intros [= <-]. exists k0. split_and!; [done..|]. intros k'. lia.
Qed.

(** The temporary label [rename_columns] works with is the first of
    [__temp_name_for_swap__], [__temp_name_for_swap___], ... (one more
    underscore each time) that is not a label of the dataset: the name
    itself when the dataset has no such column. *)
Theorem swap_temp_name_least cols s :
  ∃ k, swap_temp_name cols s = (Return (candidate k), s)
       ∧ (candidate k ∉ cols)
       ∧ (∀ k', k' < k → candidate k' ∈ cols)
       ∧ ("__temp_name_for_swap__" ∉ cols → k = 0).
Proof.
  destruct (while_temp_name_total cols) as (t & Hloop & _).
  destruct (while_temp_name_least cols _ 0 t Hloop) as (k & _ & -> & Hout & Hbelow).
  exists k. unfold swap_temp_name. rewrite Hloop. split_and!; [done..| |].
  - intros k' Hk'. apply Hbelow. lia.
  - intros Hbase. destruct k as [|k]; [done|]. exfalso. apply Hbase.
    apply (Hbelow 0). lia.
Qed.

(** [rename_columns] raises [IndexError] on an empty [columns_to_rename],
    also when there is no dataset; with a pair configured it raises
    [AttributeError] when [self.df] is [None]; in both cases the
    instance is left as it was. In every other case it returns. *)
Theorem rename_columns_outcomes cfg s :
  (columns_to_rename cfg = [] → rename_columns cfg s = (Raise IndexError, s))
  ∧ (columns_to_rename cfg ≠ [] → df s = None →
     rename_columns cfg s = (Raise AttributeError, s))
  ∧ (columns_to_rename cfg ≠ [] → is_Some (df s) →
     ∃ s', rename_columns cfg s = (Return (), s')).
Proof.
  split_and!.
  - intros Hcfg. unfold rename_columns, mbind, M_bind, first_item. by rewrite Hcfg.
  - intros Hcfg Hdf. destruct (columns_to_rename cfg) as [|[a b] rest] eqn:E; [done|].
    unfold rename_columns, mbind, M_bind, first_item, self_df.
    rewrite E. simpl. by rewrite Hdf.
  - intros Hcfg [d Hdf].
    destruct (columns_to_rename cfg) as [|[a b] rest] eqn:E; [done|].
    destruct (rename_columns_run cfg s d a b rest E Hdf) as (t & _ & _ & ->).
    eauto.
Qed.

(** A pair that names one column twice changes nothing. *)
Theorem rename_columns_same_label cfg s d a rest :
  columns_to_rename cfg = (a, a) :: rest → df s = Some d →
  rename_columns cfg s = (Return (), s).
Proof.
  intros Hcfg Hdf.
  destruct (rename_columns_run cfg s d a a rest Hcfg Hdf) as (t & _ & Hfresh & ->).
  rewrite (relabel_ext _ id), relabel_id, state_eta; [done..|].
  intros l Hl. rewrite two_renames_unfold. simpl.
  repeat case_decide; congruence.
Qed.

Lemma two_renames_inj a b temp x y :
  x ≠ temp → y ≠ temp →
  two_renames a b temp x = two_renames a b temp y → x = y.
Proof.
  intros Hx Hy. rewrite !two_renames_unfold. simpl.
  repeat case_decide; congruence.
Qed.

Lemma NoDup_two_renames a b temp d :
  temp ∉ labels d → NoDup (labels d) →
  NoDup (labels (relabel (two_renames a b temp) d)).
Proof.
  intros Hfresh Hnd. rewrite labels_relabel. apply NoDup_fmap_2_strong; [|done].
  intros x y Hx Hy. apply two_renames_inj; intros ->; done.
Qed.

(** Whatever columns are there, [rename_columns] on a configured pair
    and a dataset returns a dataset with the same row count, the same
    number of columns and the same values in the same places; the
    labels stay unique if they were and the columns stay on the
    index. *)
Theorem rename_columns_well_formed cfg s d :
  columns_to_rename cfg ≠ [] → df s = Some d →
  ∃ d', rename_columns cfg s = (Return (), mkState (Some d') (engine s))
    ∧ nrows d' = nrows d
    ∧ (columns d').*2 = (columns d).*2
    ∧ (NoDup (labels d) → NoDup (labels d'))
    ∧ (aligned d → aligned d').
Proof.
  intros Hcfg Hdf. destruct (columns_to_rename cfg) as [|[a b] rest] eqn:E; [done|].
  destruct (rename_columns_run cfg s d a b rest E Hdf) as (t & _ & Hfresh & ->).
  eexists. split_and!; [done..|apply series_relabel| |apply aligned_relabel].
  intros Hnd. by apply NoDup_two_renames.
Qed.

(** ** [apply_corrections] beyond the claims *)

Lemma getitem_missing d l : l ∉ labels d → getitem d l = Err (KeyError l).
Proof.
  intros Hl. destruct (getitem d l) as [c|e] eqn:Hg.
  - by apply getitem_Ok_label in Hg.
  - unfold getitem in *. by destruct (find_col l (columns d)); simplify_eq.
Qed.

(** [apply_corrections] raises and leaves the instance as it was when
    there is no dataset ([TypeError]), when the magnitude column is
    missing ([KeyError] on its label) and when the magnitude column
    holds strings ([TypeError]): the value column is not looked at
    before the magnitude column has been dealt with. *)
Theorem apply_corrections_raises_untouched cfg s column_name abs_column :
  (df s = None →
   apply_corrections cfg column_name abs_column s = (Raise TypeError, s))
  ∧ (∀ d, df s = Some d → abs_column ∉ labels d →
     apply_corrections cfg column_name abs_column s
     = (Raise (KeyError abs_column), s))
  ∧ (∀ d x xs, df s = Some d → getitem d abs_column = Ok (Object (x :: xs)) →
     apply_corrections cfg column_name abs_column s = (Raise TypeError, s)).
Proof.
  unfold apply_corrections, mbind, M_bind, self_df, call. split_and!.
  - by intros ->.
  - intros d -> Hl. by rewrite (getitem_missing d abs_column Hl).
  - intros d x xs -> ->. done.
Qed.

(** [apply_corrections] does not undo what it has done when it fails on
    the value column. With an integer magnitude column and a value
    column that is missing ([KeyError] on its label) or holds integers
    ([AttributeError] from [.str]), it raises with [self.df] holding the
    dataset in which the magnitude column is already replaced by its
    absolute values, every other column as it was. *)
Theorem apply_corrections_partial cfg s d column_name abs_column zs :
  df s = Some d → getitem d abs_column = Ok (Int64 zs) →
  column_name ∉ labels d ∨ (∃ ws, getitem d column_name = Ok (Int64 ws)) →
  ∃ d', apply_corrections cfg column_name abs_column s
        = (Raise (if decide (column_name ∈ labels d)
                  then AttributeError else KeyError column_name),
           mkState (Some d') (engine s))
    ∧ getitem d' abs_column = Ok (Int64 ((λ z, wrap64 (Z.abs z)) <$> zs))
    ∧ (∀ l, l ≠ abs_column → getitem d' l = getitem d l).
Proof.
  intros Hdf Habs Hcol. destruct s as [o eng]. simpl in Hdf. subst o.
  pose proof (getitem_Ok_label _ _ _ Habs) as Hain.
  unfold apply_corrections, mbind, M_bind, self_df, call, set_df. cbn.
  rewrite Habs. cbn. unfold series_abs at 1. cbn.
  set (a := Int64 ((λ z, wrap64 (Z.abs z)) <$> zs)).
  set (d1 := setitem d abs_column a).
  assert (Hl1 : labels d1 = labels d) by by apply labels_setitem.
  assert (Ha1 : getitem d1 abs_column = Ok a) by by apply getitem_setitem_eq.
  assert (Ho1 : ∀ l, l ≠ abs_column → getitem d1 l = getitem d l).
  { intros l Hl. by apply getitem_setitem_ne. }
  destruct Hcol as [Hmiss|[ws Hws]].
  - rewrite decide_False by done.
    rewrite (getitem_missing d1 column_name) by by rewrite Hl1. cbn.
    by exists d1.
  - pose proof (getitem_Ok_label _ _ _ Hws) as Hcin.
    rewrite decide_True by done.
    assert (Hc1 : ∃ vs, getitem d1 column_name = Ok (Int64 vs)).
    { destruct (decide (column_name = abs_column)) as [->|Hne].
      - by exists ((λ z, wrap64 (Z.abs z)) <$> zs).
      - exists ws. by rewrite Ho1. }
    destruct Hc1 as [vs Hc1]. rewrite Hc1. cbn.
    unfold apply_values_to_rename at 1 2.
    set (d2 := setitem d1 column_name (Int64 vs)).
    assert (Hc2 : getitem d2 column_name = Ok (Int64 vs)).
    { apply getitem_setitem_eq. by rewrite Hl1. }
    rewrite Hc2. cbn. exists d2. split; [done|].
    assert (Ho2 : ∀ l, getitem d2 l = getitem d1 l).
    { intros l. destruct (decide (l = column_name)) as [->|Hne].
      - by rewrite Hc2, Hc1.
      - apply getitem_setitem_ne; [by rewrite Hl1 | done]. }
    split; [by rewrite Ho2|]. intros l Hl. by rewrite Ho2, Ho1.
Qed.

Lemma wrap64_abs z :
  in_int64 z →
  wrap64 (Z.abs z) = (if decide (z = - 2 ^ 63) then - 2 ^ 63 else Z.abs z)%Z.
Proof.
  unfold in_int64, wrap64. intros Hz. case_decide as Hmin.
  - subst z. reflexivity.
  - rewrite Z.mod_small; lia.
Qed.

Lemma wrap64_abs_in_int64 z : in_int64 z → in_int64 (wrap64 (Z.abs z)).
Proof.
  intros Hz. rewrite wrap64_abs by done. unfold in_int64 in *.
  case_decide; lia.
Qed.

Lemma wrap64_abs_twice z :
  in_int64 z → wrap64 (Z.abs (wrap64 (Z.abs z))) = wrap64 (Z.abs z).
Proof.
  intros Hz. rewrite (wrap64_abs (wrap64 (Z.abs z))) by by apply wrap64_abs_in_int64.
  rewrite wrap64_abs by done. unfold in_int64 in Hz.
  repeat case_decide; lia.
Qed.

(** On a string value column and a magnitude column of [int64] values,
    [apply_corrections] replaces every magnitude by its absolute value,
    except the least [int64], which stays negative; a second run
    returns as well and leaves the magnitude column as the first run
    made it, while the value column is corrected a second time (a value
    that became a key of the table by being stripped is substituted
    then). *)
Theorem apply_corrections_twice cfg s d column_name abs_column xs zs :
  df s = Some d →
  getitem d column_name = Ok (Object xs) →
  getitem d abs_column = Ok (Int64 zs) →
  Forall in_int64 zs →
  ∃ d1 d2,
    apply_corrections cfg column_name abs_column s
      = (Return (), mkState (Some d1) (engine s))
    ∧ apply_corrections cfg column_name abs_column (mkState (Some d1) (engine s))
      = (Return (), mkState (Some d2) (engine s))
    ∧ getitem d1 abs_column
      = Ok (Int64 ((λ z, if decide (z = - 2 ^ 63) then - 2 ^ 63 else Z.abs z)%Z
                     <$> zs))
    ∧ getitem d2 abs_column = getitem d1 abs_column
    ∧ getitem d2 column_name
      = Ok (Object (corrected (values_to_rename cfg)
                      <$> (corrected (values_to_rename cfg) <$> xs))).
Proof.
  intros Hdf Hcol Habs Hzs.
  destruct (apply_corrections_run cfg s d column_name abs_column xs zs)
    as (d1 & Hrun1 & Hc1 & Ha1); [done..|].
  destruct (apply_corrections_run cfg (mkState (Some d1) (engine s)) d1
              column_name abs_column _ _ eq_refl Hc1 Ha1)
    as (d2 & Hrun2 & Hc2 & Ha2).
  exists d1, d2. split_and!; [done..| | |done].
  - rewrite Ha1. do 2 f_equal. apply Forall_fmap_ext.
    eapply Forall_impl; [exact Hzs|]. intros z Hz. by apply wrap64_abs.
  - rewrite Ha2, Ha1. do 2 f_equal. rewrite <- list_fmap_compose.
    apply Forall_fmap_ext. eapply Forall_impl; [exact Hzs|].
    intros z Hz. simpl. by apply wrap64_abs_twice.
Qed.

Lemma lstrip_starts s : starts_with_space (lstrip s) = false.
Proof.
  induction s as [|c r IH]; simpl; [done|].
  destruct (isspace c) eqn:Hc; [done|]. by simpl.
Qed.

Lemma rstrip_ends s : ends_with_space (rstrip s) = false.
Proof.
  induction s as [|c r IH]; simpl; [done|].
  destruct (rstrip r) as [|c' r'] eqn:Hr.
  - by destruct (isspace c) eqn:Hc; simpl.
  - exact IH.
Qed.

Lemma lstrip_ends s : ends_with_space s = false → ends_with_space (lstrip s) = false.
Proof.
  induction s as [|c r IH]; [done|]. intros He.
  change (lstrip (String c r)) with (if isspace c then lstrip r else String c r).
  destruct (isspace c) eqn:Hc; [|exact He].
  destruct r as [|c' r']; [done|]. apply IH. exact He.
Qed.

Lemma strip_clean s :
  starts_with_space (strip s) = false ∧ ends_with_space (strip s) = false.
Proof.
  unfold strip. split; [apply lstrip_starts|]. apply lstrip_ends, rstrip_ends.
Qed.

Lemma strip_fixed s :
  starts_with_space s = false → ends_with_space s = false → strip s = s.
Proof.
  intros Hs He. unfold strip.
  assert (Hr : rstrip s = s).
  { clear Hs. induction s as [|c r IH]; simpl; [done|].
    destruct r as [|c' r']; simpl in *; [by rewrite He|].
    rewrite IH by done. done. }
  rewrite Hr. destruct s as [|c r]; simpl in *; [done|]. by rewrite Hs.
Qed.

(** After [apply_corrections] has returned, no value of the value column
    begins or ends with a whitespace character, and stripping the
    values again would change none of them; the column has the rows it
    had. *)
Theorem apply_corrections_stripped cfg s d column_name abs_column xs zs :
  df s = Some d →
  getitem d column_name = Ok (Object xs) →
  getitem d abs_column = Ok (Int64 zs) →
  ∃ d' vs,
    apply_corrections cfg column_name abs_column s
      = (Return (), mkState (Some d') (engine s))
    ∧ getitem d' column_name = Ok (Object vs)
    ∧ length vs = length xs
    ∧ Forall (λ v, starts_with_space v = false ∧ ends_with_space v = false
                   ∧ strip v = v) vs.
Proof.
  intros Hdf Hcol Habs.
  destruct (apply_corrections_run cfg s d column_name abs_column xs zs)
    as (d' & Hrun & Hval & _); [done..|].
  eexists d', _. split_and!; [done..|apply length_fmap|].
  apply Forall_fmap, Forall_forall. intros v _. unfold corrected. simpl.
  destruct (strip_clean (match values_to_rename cfg !! v with
                         | Some canonical => canonical
                         | None => v
                         end)) as [H1 H2].
  split_and!; [done..|]. by apply strip_fixed.
Qed.

(** ** [weather_station_mapping] beyond the claims *)


Lemma filter_labels (P : string → Prop) `{!∀ l, Decision (P l)}
    (cols : list (string * Series)) :
  (filter (λ c, P c.1) cols).*1 = filter P cols.*1.
Proof.
  induction cols as [|[l c] cols IH]; [done|].
  rewrite fmap_cons, !filter_cons. simpl.
  case_decide; [rewrite fmap_cons|]; by rewrite IH.
Qed.

Lemma filter_ext_in {A} (P Q : A → Prop) `{!∀ x, Decision (P x), !∀ x, Decision (Q x)}
    (l : list A) :
  (∀ x, x ∈ l → P x ↔ Q x) → filter P l = filter Q l.
Proof.
  induction l as [|x l IH]; intros HPQ; [done|].
  rewrite !filter_cons.
  assert (Hx : P x ↔ Q x) by (apply HPQ, list_elem_of_here).
  rewrite IH by (intros y Hy; apply HPQ; by apply elem_of_cons; right).
  destruct (decide (P x)), (decide (Q x)); tauto.
Qed.

Lemma elem_of_shared a b l : l ∈ shared a b ↔ l ∈ labels a ∧ l ∈ labels b.
Proof. unfold shared. rewrite list_elem_of_filter. tauto. Qed.

Lemma labels_merge d m j :
  merge d m = Ok j →
  labels j = labels d ++ filter (λ l, l ∉ labels d) (labels m).
Proof.
  unfold merge. case_bool_decide; [done|].
  destruct (negb _); [done|]. destruct (filter _ (shared d m)); [|done].
  intros [= <-]. unfold labels. simpl. rewrite fmap_app. f_equal.
  - rewrite <- list_fmap_compose. by apply list_fmap_ext; intros ? [l c] ?.
  - rewrite <- list_fmap_compose.
    rewrite (list_fmap_ext _ fst) by by intros ? [l c] ?.
    pose proof (filter_labels (λ l, l ∉ shared d m) (columns m)) as Hf.
    simpl in Hf. rewrite Hf.
    apply filter_ext_in. intros l Hl. rewrite elem_of_shared. tauto.
Qed.

Lemma well_formed_merge d m j :
  well_formed d → well_formed m → merge d m = Ok j → well_formed j.
Proof.
  intros [Had Hnd] [Ham Hnm] Hj. split; [by apply (aligned_merge d m j)|].
  rewrite (labels_merge d m j Hj). apply NoDup_app. split_and!; [done| |].
  - intros l Hl Hin. apply list_elem_of_filter in Hin as [Hout _]. by apply Hout.
  - by apply NoDup_filter.
Qed.

(** When [weather_station_mapping] returns, the labels of the joined
    dataset are the labels of the working dataset, in their order,
    followed by the labels of the mapping table that the working dataset
    does not have; the two tables share a label; and the joined dataset
    has its columns on the index and unique labels when both tables
    have. *)
Theorem weather_station_mapping_columns w cfg s d m j s' :
  df s = Some d → read_csv w (weather_map_data cfg) = Ok m →
  weather_station_mapping w cfg s = (Return j, s') →
  labels j = labels d ++ filter (λ l, l ∉ labels d) (labels m)
  ∧ (∃ l, l ∈ labels d ∧ l ∈ labels m)
  ∧ (well_formed d → well_formed m → well_formed j).
Proof.
  intros Hdf Hm. rewrite (weather_station_mapping_run w cfg s d m Hdf Hm).
  destruct (merge d m) as [j0|] eqn:Hmerge; [|done]. intros [= <- <-].
  split_and!.
  - by apply labels_merge.
  - unfold merge in Hmerge. case_bool_decide as Hs; [done|].
    destruct (shared d m) as [|l ls] eqn:E; [done|]. exists l.
    apply elem_of_shared. rewrite E. apply list_elem_of_here.
  - intros Hd Hwm. by apply (well_formed_merge d m j0).
Qed.

(** ** [process] beyond the claims *)

Lemma query_data_read w e q d :
  query_data w e q = Ok d → read_sql_query w e q = Ok d.
Proof.
  unfold query_data. destruct (connect w e); [|done].
  destruct (read_sql_query w e q) as [d0|]; [|done].
  destruct (empty d0); [done|]. by intros [= <-].
Qed.


Lemma ingest_sql_data_holds w cfg s :
  (∀ e t, read_sql_query w e (sql_query cfg) = Ok t → well_formed t) →
  holds_well_formed s → holds_well_formed (ingest_sql_data w cfg s).2.
Proof.
  intros Hq Hs. rewrite ingest_sql_data_run.
  assert (G : ∀ e o, holds_well_formed (mkState o (Some e)) ∨ df s = o →
    holds_well_formed
      (match query_data w e (sql_query cfg) with
       | Ok d => (Return d, mkState (Some d) (Some e))
       | Err x => (Raise x, mkState o (Some e))
       end).2).
  { intros e o Ho. destruct (query_data w e (sql_query cfg)) as [d|] eqn:E; simpl.
    - intros d' [= <-]. eapply Hq. by eapply query_data_read.
    - destruct Ho as [Ho| <-]; [done|]. intros d' Hd'. by apply Hs. }
  destruct s as [o [e|]]; simpl in *.
  - apply (G e o). by left.
  - destruct (create_db_engine w (db_path cfg)) as [e|]; [|done].
    apply (G e o). by right.
Qed.

Lemma rename_columns_holds cfg s :
  holds_well_formed s → holds_well_formed (rename_columns cfg s).2.
Proof.
  intros Hs. destruct (columns_to_rename cfg) as [|[a b] rest] eqn:Hcfg.
  - unfold rename_columns, mbind, M_bind, first_item. by rewrite Hcfg.
  - destruct (df s) as [d|] eqn:Hdf.
    + destruct (rename_columns_run cfg s d a b rest Hcfg Hdf) as (t & _ & Hf & ->).
      intros d' [= <-]. destruct (Hs d Hdf) as [Ha Hn]. split.
      * by apply aligned_relabel.
      * by apply NoDup_two_renames.
    + unfold rename_columns, mbind, M_bind, first_item, self_df.
      rewrite Hcfg. simpl. by rewrite Hdf.
Qed.

Lemma apply_corrections_holds cfg c a s :
  holds_well_formed s → holds_well_formed (apply_corrections cfg c a s).2.
Proof.
  intros Hs. destruct (df s) as [d|] eqn:Hdf.
  - destruct (Hs d Hdf) as [Ha Hn].
    destruct (apply_corrections_kept cfg s d c a Hdf) as (r & d' & Hrun & _ & Hk).
    destruct (apply_corrections_aligned cfg s d c a _ _ Hdf Ha Hrun)
      as (d'' & Hd'' & Ha'').
    rewrite Hrun. simpl in *. simplify_eq. intros d0 [= <-]. split; [done|].
    by rewrite (kept_outside_labels _ _ _ Hk).
  - unfold apply_corrections, mbind, M_bind, self_df. by rewrite Hdf.
Qed.

Lemma weather_station_mapping_holds w cfg s :
  (∀ m, read_csv w (weather_map_data cfg) = Ok m → well_formed m) →
  holds_well_formed s → holds_well_formed (weather_station_mapping w cfg s).2.
Proof.
  intros Hm Hs.
  unfold weather_station_mapping, mbind, M_bind, self_df, call, set_df,
    read_from_web_CSV.
  destruct (df s) as [d|] eqn:Hdf; [|done].
  destruct (read_csv w (weather_map_data cfg)) as [m|] eqn:Hcsv; [|done].
  destruct (merge d m) as [j|] eqn:Hj; [|done]. simpl.
  intros d' [= <-]. apply (well_formed_merge d m j); auto.
Qed.

Lemma drop_unnamed_holds s :
  holds_well_formed s → holds_well_formed (drop_unnamed s).2.
Proof.
  intros Hs. unfold drop_unnamed, mbind, M_bind, self_df, call, set_df.
  destruct (df s) as [d|] eqn:Hdf; [|done].
  destruct (drop "Unnamed: 0" d) as [d'|] eqn:Hd; [|done]. simpl.
  intros d0 [= <-]. destruct (Hs d Hdf) as [Ha Hn]. split.
  - by apply (aligned_drop "Unnamed: 0" d d').
  - unfold drop in Hd. case_bool_decide; [|done]. simplify_eq.
    unfold labels. simpl.
    pose proof (filter_labels (λ l, l ≠ "Unnamed: 0") (columns d)) as Hf.
    simpl in Hf. rewrite Hf. by apply NoDup_filter.
Qed.

(** If the store answers the query, and the web the fetch, with
    well-formed tables (columns on the index, labels unique), then
    whatever [process] does, returning or raising at any step, the
    dataset it leaves in [self.df] is well formed, provided the one it
    found there was. *)
Theorem process_well_formed w cfg s :
  (∀ e t, read_sql_query w e (sql_query cfg) = Ok t → well_formed t) →
  (∀ m, read_csv w (weather_map_data cfg) = Ok m → well_formed m) →
  (∀ d, df s = Some d → well_formed d) →
  ∀ d', df (process w cfg s).2 = Some d' → well_formed d'.
Proof.
  intros Hq Hm Hs.
  change (holds_well_formed (process w cfg s).2).
  pose proof (ingest_sql_data_holds w cfg s Hq Hs) as H1.
  unfold process, mbind, M_bind.
  destruct (ingest_sql_data w cfg s) as [[?| |] s1]; [|done..].
  pose proof (rename_columns_holds cfg s1 H1) as H2.
  destruct (rename_columns cfg s1) as [[?| |] s2]; [|done..].
  pose proof (apply_corrections_holds cfg "Crop_type" "Elevation" s2 H2) as H3.
  destruct (apply_corrections cfg "Crop_type" "Elevation" s2) as [[?| |] s3];
    [|done..].
  pose proof (weather_station_mapping_holds w cfg s3 Hm H3) as H4.
  destruct (weather_station_mapping w cfg s3) as [[?| |] s4]; [|done..].
  by apply drop_unnamed_holds.
Qed.

Lemma setitem_setitem d l c1 c2 :
  l ∈ labels d → setitem (setitem d l c1) l c2 = setitem d l c2.
Proof.
  intros Hin. unfold setitem at 1. rewrite labels_setitem by done.
  rewrite bool_decide_eq_true_2 by done. unfold setitem. simpl.
  rewrite bool_decide_eq_true_2 by done. f_equal.
  rewrite <- list_fmap_compose. apply list_fmap_ext. intros i [l0 c0] _. simpl.
  destruct (decide (l0 = l)) as [->|Hne]; simpl.
  - by rewrite decide_True.
  - by rewrite decide_False.
Qed.

(** The dataset [apply_corrections] leaves on a string value column and
    an integer magnitude column. *)
Lemma apply_corrections_result cfg s d column_name abs_column xs zs :
  df s = Some d →
  getitem d column_name = Ok (Object xs) →
  getitem d abs_column = Ok (Int64 zs) →
  apply_corrections cfg column_name abs_column s
  = (Return (),
     mkState
       (Some (setitem
                (setitem d abs_column (Int64 ((λ z, wrap64 (Z.abs z)) <$> zs)))
                column_name
                (Object (corrected (values_to_rename cfg) <$> xs))))
       (engine s)).
Proof.
  intros Hdf Hcol Habs. destruct s as [o eng]. simpl in Hdf. subst o.
  assert (Hne : abs_column ≠ column_name) by (intros ->; congruence).
  pose proof (getitem_Ok_label _ _ _ Hcol) as Hcin.
  pose proof (getitem_Ok_label _ _ _ Habs) as Hain.
  unfold apply_corrections, mbind, M_bind, self_df, call, set_df. cbn.
  rewrite Habs. cbn. unfold series_abs at 1. cbn.
  set (a := Int64 ((λ z, wrap64 (Z.abs z)) <$> zs)).
  set (d1 := setitem d abs_column a).
  assert (Hl1 : labels d1 = labels d) by by apply labels_setitem.
  assert (Hg1 : getitem d1 column_name = Ok (Object xs)).
  { unfold d1. by rewrite getitem_setitem_ne. }
  rewrite Hg1. cbn.
  set (d2 := setitem d1 column_name (apply_values_to_rename cfg (Object xs))).
  assert (Hg2 : getitem d2 column_name = Ok (apply_values_to_rename cfg (Object xs))).
  { unfold d2. rewrite getitem_setitem_eq; [done | by rewrite Hl1]. }
  rewrite Hg2. unfold str_strip, apply_values_to_rename at 1. cbn.
  unfold d2. rewrite setitem_setitem by by rewrite Hl1.
  do 5 f_equal. rewrite <- list_fmap_compose.
  apply list_fmap_ext. intros i v _. unfold corrected. simpl.
  by destruct (values_to_rename cfg !! v).
Qed.

Lemma process_ingest w cfg s :
  process w cfg s = (ingest_sql_data w cfg;; process_after_ingest w cfg) s.
Proof. reflexivity. Qed.

(** The whole pipeline as one expression. With an engine at hand and a
    query answered, by a non-empty table [t] that has both columns of
    the rename pair and in which, once the two are exchanged,
    [Crop_type] holds strings and [Elevation] integers, [process]
    returns when the join with the fetched table succeeds and has the
    column [Unnamed: 0]; what it leaves in [self.df] is then the
    join of the corrected, relabelled [t] with the fetched table, without
    that column, and in [self.engine] the engine. *)
Theorem process_end_to_end w cfg s e a b rest t xs zs m j :
  engine s = Some e
  ∨ (engine s = None ∧ create_db_engine w (db_path cfg) = Ok e) →
  query_data w e (sql_query cfg) = Ok t →
  columns_to_rename cfg = (a, b) :: rest → a ∈ labels t → b ∈ labels t →
  getitem (relabel (swap_label a b) t) "Crop_type" = Ok (Object xs) →
  getitem (relabel (swap_label a b) t) "Elevation" = Ok (Int64 zs) →
  read_csv w (weather_map_data cfg) = Ok m →
  merge
    (setitem
       (setitem (relabel (swap_label a b) t) "Elevation"
          (Int64 ((λ z, wrap64 (Z.abs z)) <$> zs)))
       "Crop_type" (Object (corrected (values_to_rename cfg) <$> xs)))
    m = Ok j →
  "Unnamed: 0" ∈ labels j →
  process w cfg s
  = (Return (),
     mkState
       (Some (mkDF (nrows j) (filter (λ c, c.1 ≠ "Unnamed: 0") (columns j))))
       (Some e)).
Proof.
  intros He Hq Hcfg Ha Hb Hcrop Helev Hm Hj Hun.
  assert (H1 : ingest_sql_data w cfg s = (Return t, mkState (Some t) (Some e))).
  { rewrite ingest_sql_data_run.
    destruct He as [->|[-> ->]]; by rewrite Hq. }
  rewrite process_ingest. unfold mbind at 1, M_bind at 1. rewrite H1.
  unfold process_after_ingest, mbind, M_bind.
  destruct (rename_columns_run cfg (mkState (Some t) (Some e)) t a b rest Hcfg eq_refl)
    as (temp & _ & Hfresh & ->).
  rewrite two_renames_swap by done. simpl.
  rewrite (apply_corrections_result cfg
             (mkState (Some (relabel (swap_label a b) t)) (Some e))
             (relabel (swap_label a b) t) "Crop_type" "Elevation" xs zs
             eq_refl Hcrop Helev). simpl.
  erewrite weather_station_mapping_run; [|done..]. rewrite Hj.
  unfold drop_unnamed, mbind, M_bind, self_df, call, set_df, drop. simpl.
  by rewrite bool_decide_eq_true_2.
Qed.



(** ** [initialize_logging] *)

Lemma upper_char_capital c u rest :
  (65 ≤ u ≤ 90)%N → u ≠ 83%N →
  upper_char c = u :: rest ↔
  rest = [] ∧ (Ascii.N_of_ascii c = u ∨ Ascii.N_of_ascii c = (u + 32)%N).
Proof.
  intros Hu Hs. unfold upper_char.
  set (n := Ascii.N_of_ascii c).
  destruct (97 <=? n)%N eqn:H1; destruct (n <=? 122)%N eqn:H2; simpl;
    destruct (n =? 181)%N eqn:H3; destruct (n =? 223)%N eqn:H4;
    destruct (224 <=? n)%N eqn:H5; destruct (n <=? 254)%N eqn:H6;
    destruct (n =? 247)%N eqn:H7; destruct (n =? 255)%N eqn:H8; simpl;
    rewrite ?N.leb_le, ?N.leb_gt, ?N.eqb_eq, ?N.eqb_neq in *;
    (split; [intros [= <- <-] | intros [-> Hc]]);
    try (split; [done|]); try lia; f_equal; lia.
Qed.

Lemma upper_char_nonempty c : upper_char c ≠ [].
Proof. unfold upper_char. by repeat case_match. Qed.

Lemma upper_same_word s word :
  plain_capitals word → upper s = code_points word ↔ same_word s word.
Proof.
  unfold plain_capitals. revert word.
  induction s as [|c r IH]; intros [|u v] Hw; simpl; try done.
  - split; [|done]. intros [Hc _]%app_eq_nil. by apply upper_char_nonempty in Hc.
  - apply Forall_cons in Hw as [[Hu Hs] Hv].
    split.
    + destruct (upper_char c) as [|x rest] eqn:Hc;
        [by apply upper_char_nonempty in Hc|].
      simpl. intros [= -> Hr].
      apply upper_char_capital in Hc as [-> Hc]; [|done..].
      split; [done|]. by apply IH.
    + intros [Hc Hr].
      assert (Hx : upper_char c = [Ascii.N_of_ascii u])
        by by apply upper_char_capital.
      rewrite Hx. simpl. f_equal. by apply IH.
Qed.

Lemma plain_capitals_words :
  plain_capitals "DEBUG" ∧ plain_capitals "INFO" ∧ plain_capitals "NONE".
Proof.
  unfold plain_capitals. split_and!; cbv [code_points Ascii.N_of_ascii Ascii.N_of_digits];
    simpl; repeat (constructor; [split; [lia | done]|]); constructor.
Qed.

Lemma upper_is_same_word s word :
  plain_capitals word → upper_is s word = true ↔ same_word s word.
Proof.
  intros Hw. unfold upper_is. rewrite bool_decide_eq_true.
  by apply upper_same_word.
Qed.

Lemma upper_is_not_same_word s word :
  plain_capitals word → upper_is s word = false ↔ ¬ same_word s word.
Proof.
  intros Hw. rewrite <- (upper_is_same_word s word Hw).
  by destruct (upper_is s word).
Qed.

Lemma same_word_length s word : same_word s word → String.length s = String.length word.
Proof.
  revert word. induction s as [|c r IH]; intros [|u v]; simpl; try done.
  intros [_ Hr]. f_equal. by apply IH.
Qed.

(** The level is read without regard to the case of its letters:
    [debug], [Debug], ... set the logger up as [DEBUG] does, and so for
    [INFO] and [NONE]; every other string sets it up as [INFO] does. *)
Theorem initialize_logging_level module_name logging_level loggers :
  (same_word logging_level "DEBUG" →
   initialize_logging module_name logging_level loggers
   = initialize_logging module_name "DEBUG" loggers)
  ∧ (same_word logging_level "INFO" →
     initialize_logging module_name logging_level loggers
     = initialize_logging module_name "INFO" loggers)
  ∧ (same_word logging_level "NONE" →
     initialize_logging module_name logging_level loggers
     = initialize_logging module_name "NONE" loggers)
  ∧ (¬ same_word logging_level "DEBUG" → ¬ same_word logging_level "NONE" →
     initialize_logging module_name logging_level loggers
     = initialize_logging module_name "INFO" loggers).
Proof.
  destruct plain_capitals_words as (HD & HI & HN).
  assert (Hlen : ∀ w1 w2, same_word logging_level w1 → same_word logging_level w2 →
            String.length w1 = String.length w2).
  { intros w1 w2 H1 H2. by rewrite <- (same_word_length _ _ H1),
      <- (same_word_length _ _ H2). }
  unfold initialize_logging. split_and!.
  - intros H. by rewrite (proj2 (upper_is_same_word _ _ HD) H).
  - intros H.
    assert (upper_is logging_level "DEBUG" = false) as ->.
    { apply upper_is_not_same_word; [done|]. intros H'.
      by pose proof (Hlen _ _ H H'). }
    by rewrite (proj2 (upper_is_same_word _ _ HI) H).
  - intros H.
    assert (upper_is logging_level "DEBUG" = false) as ->.
    { apply upper_is_not_same_word; [done|]. intros H'.
      by pose proof (Hlen _ _ H H'). }
    assert (upper_is logging_level "INFO" = false) as ->.
    { apply upper_is_not_same_word; [done|]. intros H'.
      destruct logging_level as [|c r]; [done|].
      destruct H as [[?|?] _], H' as [[?|?] _]; simpl in *; lia. }
    by rewrite (proj2 (upper_is_same_word _ _ HN) H).
  - intros H1 H2.
    rewrite (proj2 (upper_is_not_same_word _ _ HD) H1).
    rewrite (proj2 (upper_is_not_same_word _ _ HN) H2).
    by destruct (upper_is logging_level "INFO").
Qed.

(** One call of [initialize_logging], seen on the logger of the class. *)
Lemma initialize_logging_logger module_name logging_level loggers :
  ∃ lg, initialize_logging module_name logging_level loggers
        !! logger_name module_name = Some lg
    ∧ propagate lg = false
    ∧ (disabled (getLogger (logger_name module_name) loggers) = true →
       disabled lg = true)
    ∧ (upper_is logging_level "DEBUG" = false →
       upper_is logging_level "INFO" = false →
       upper_is logging_level "NONE" = true → disabled lg = true)
    ∧ length (handlers lg)
      ≤ Nat.max 1 (length (handlers (getLogger (logger_name module_name) loggers))).
Proof.
  unfold initialize_logging.
  set (lg0 := getLogger (logger_name module_name) loggers).
  assert (Hh : ∀ l lg, length (handlers (set_level_and_handler l lg))
                       ≤ Nat.max 1 (length (handlers lg))).
  { intros l lg. unfold set_level_and_handler. simpl.
    case_bool_decide as Hnil; [rewrite Hnil; simpl|]; lia. }
  destruct (upper_is logging_level "DEBUG");
    [|destruct (upper_is logging_level "INFO");
      [|destruct (upper_is logging_level "NONE")]];
    rewrite lookup_insert_eq; eexists; (split; [done|]);
    split_and!; try done;
    first [by etrans; [apply Hh|] | simpl; lia].
Qed.

Lemma initialize_logging_others module_name logging_level loggers other :
  other ≠ logger_name module_name →
  initialize_logging module_name logging_level loggers !! other = loggers !! other.
Proof.
  intros Hne. unfold initialize_logging.
  repeat case_match; by rewrite lookup_insert_ne.
Qed.

Lemma getLogger_lookup name loggers lg :
  loggers !! name = Some lg → getLogger name loggers = lg.
Proof. unfold getLogger. by intros ->. Qed.

(** However many instances are made, with whatever levels, the logger
    of the class never gets a second handler if it had at most one, and
    no other logger of the process is touched. *)
Theorem initialize_logging_one_handler module_name logging_levels loggers :
  length (handlers (getLogger (logger_name module_name) loggers)) ≤ 1 →
  length (handlers (getLogger (logger_name module_name)
                      (initialize_logging_each module_name logging_levels loggers)))
  ≤ 1
  ∧ (∀ other, other ≠ logger_name module_name →
       initialize_logging_each module_name logging_levels loggers !! other
       = loggers !! other).
Proof.
  unfold initialize_logging_each. revert loggers.
  induction logging_levels as [|lvl lvls IH]; intros loggers Hone; [done|].
  simpl.
  destruct (initialize_logging_logger module_name lvl loggers)
    as (lg & Hlg & _ & _ & _ & Hlen).
  destruct (IH (initialize_logging module_name lvl loggers)) as [H1 H2].
  { rewrite (getLogger_lookup _ _ _ Hlg). lia. }
  split; [done|]. intros other Hne.
  by rewrite H2, initialize_logging_others.
Qed.

Lemma initialize_logging_each_disabled module_name logging_levels loggers :
  disabled (getLogger (logger_name module_name) loggers) = true →
  disabled (getLogger (logger_name module_name)
              (initialize_logging_each module_name logging_levels loggers)) = true.
Proof.
  unfold initialize_logging_each. revert loggers.
  induction logging_levels as [|lvl lvls IH]; intros loggers Hd; [done|].
  simpl. apply IH.
  destruct (initialize_logging_logger module_name lvl loggers)
    as (lg & Hlg & _ & Hkeep & _).
  rewrite (getLogger_lookup _ _ _ Hlg). by apply Hkeep.
Qed.

(** The logger is shared by all instances and [initialize_logging]
    never enables it again: once an instance has been made with the
    level [NONE] (in any case of letters), the logger of the class is
    disabled, and it is still disabled after any number of instances
    made afterwards with any levels. It does not propagate to the root
    logger either. *)
Theorem initialize_logging_none_sticks module_name before logging_level after loggers :
  same_word logging_level "NONE" →
  disabled (getLogger (logger_name module_name)
              (initialize_logging_each module_name
                 (before ++ logging_level :: after) loggers)) = true
  ∧ propagate (getLogger (logger_name module_name)
                 (initialize_logging_each module_name
                    (before ++ logging_level :: after) loggers)) = false.
Proof.
  intros Hnone.
  destruct plain_capitals_words as (HD & HI & HN).
  split.
  - unfold initialize_logging_each. rewrite foldl_app. simpl.
    apply (initialize_logging_each_disabled module_name after).
    set (lgs := foldl _ loggers before).
    destruct (initialize_logging_logger module_name logging_level lgs)
      as (lg & Hlg & _ & _ & Hdis & _).
    rewrite (getLogger_lookup _ _ _ Hlg). apply Hdis.
    + apply upper_is_not_same_word; [done|]. intros H'.
      pose proof (same_word_length _ _ Hnone). pose proof (same_word_length _ _ H').
      simpl in *. lia.
    + apply upper_is_not_same_word; [done|]. intros H'.
      destruct logging_level as [|c r]; [done|].
      destruct Hnone as [[?|?] _], H' as [[?|?] _]; simpl in *; lia.
    + by apply upper_is_same_word.
  - unfold initialize_logging_each.
    assert (G : ∀ lvls lgs, lvls ≠ [] →
              propagate (getLogger (logger_name module_name)
                (foldl (λ lgs lvl, initialize_logging module_name lvl lgs) lgs lvls))
              = false).
    { intros lvls. induction lvls as [|lvl lvls IH] using rev_ind; [done|].
      intros lgs _. rewrite foldl_app. simpl.
      destruct (initialize_logging_logger module_name lvl
                  (foldl (λ lgs lvl, initialize_logging module_name lvl lgs) lgs lvls))
        as (lg & Hlg & Hp & _).
      by rewrite (getLogger_lookup _ _ _ Hlg). }
    apply G. by destruct before.
Qed.

(** ** [__init__] *)

(** [__init__] reads five keys of [config_params] in a fixed order. If
    one is missing it raises [KeyError] on the first missing one and has
    not touched the loggers. Otherwise it returns an instance with the
    five values as attributes, [self.df] and [self.engine] both [None],
    and the loggers as [initialize_logging] leaves them; other keys of
    [config_params] play no part. *)
Theorem init_outcomes module_name config_params logging_level loggers :
  match first_missing config_params with
  | Some key =>
      __init__ module_name config_params logging_level loggers
      = (Err (KeyError key), loggers)
  | None =>
      ∃ a, __init__ module_name config_params logging_level loggers
           = (Ok (a, init), initialize_logging module_name logging_level loggers)
        ∧ config_params !! "db_path" = Some (attr_db_path a)
        ∧ config_params !! "sql_query" = Some (attr_sql_query a)
        ∧ config_params !! "columns_to_rename" = Some (attr_columns_to_rename a)
        ∧ config_params !! "values_to_rename" = Some (attr_values_to_rename a)
        ∧ config_params !! "weather_mapping_csv" = Some (attr_weather_map_data a)
  end.
Proof.
  unfold first_missing, config_keys, __init__, subscript.
  rewrite !filter_cons, filter_nil.
  destruct (config_params !! "db_path") as [v1|] eqn:E1; simpl; [|done].
  destruct (config_params !! "sql_query") as [v2|] eqn:E2; simpl; [|done].
  destruct (config_params !! "columns_to_rename") as [v3|] eqn:E3; simpl; [|done].
  destruct (config_params !! "values_to_rename") as [v4|] eqn:E4; simpl; [|done].
  destruct (config_params !! "weather_mapping_csv") as [v5|] eqn:E5; simpl; [|done].
  by eexists.
Qed.

(** With the five keys present and of the types the methods need,
    [__init__] returns a fresh instance ([self.df] and [self.engine]
    [None]) whose configuration is made of exactly these values: the
    value of the key [weather_mapping_csv] is the attribute
    [weather_map_data], and the two dicts are read as the rename pair(s)
    and the substitution table. *)
Theorem init_configuration module_name config_params logging_level loggers
    p q cs vs u :
  config_params !! "db_path" = Some (PyStr p) →
  config_params !! "sql_query" = Some (PyStr q) →
  config_params !! "columns_to_rename" = Some (PyDict cs) →
  config_params !! "values_to_rename" = Some (PyDict vs) →
  config_params !! "weather_mapping_csv" = Some (PyStr u) →
  ∃ a, __init__ module_name config_params logging_level loggers
       = (Ok (a, init), initialize_logging module_name logging_level loggers)
    ∧ as_config a
      = Some {| db_path := p; sql_query := q; columns_to_rename := cs;
                values_to_rename := list_to_map vs; weather_map_data := u |}.
Proof.
  intros E1 E2 E3 E4 E5. unfold __init__, subscript.
  rewrite E1, E2, E3, E4, E5. by eexists.
Qed.

(** * The further properties at concrete inputs *)

Lemma ingest_sql_data_reuses_engine_witness :
  engine (holding_with_engine plots) = Some survey_engine
  ∧ ingest_sql_data (world survey stations) survey_config (holding_with_engine plots)
    = ingest_sql_data (world_without_driver survey stations) survey_config
        (holding_with_engine plots).
Proof.
  split; [reflexivity|].
  exact (ingest_sql_data_reuses_engine (world survey stations)
           (world_without_driver survey stations) survey_config
           (holding_with_engine plots) survey_engine eq_refl eq_refl eq_refl).
Defined.

Lemma rename_columns_same_label_witness :
  rename_columns (config ("Field_ID", "Field_ID")) (holding plots)
  = (Return (), holding plots).
Proof.
  exact (rename_columns_same_label (config ("Field_ID", "Field_ID"))
           (holding plots) plots "Field_ID" [] eq_refl eq_refl).
Defined.

Lemma rename_columns_well_formed_witness :
  NoDup (labels plots_no_field) ∧ aligned plots_no_field
  ∧ ∃ d', rename_columns plots_config (holding plots_no_field)
          = (Return (), holding d')
      ∧ NoDup (labels d') ∧ aligned d'.
Proof.
  assert (Hn : NoDup (labels plots_no_field)) by compute_done.
  assert (Ha : aligned plots_no_field) by compute_done.
  split; [exact Hn|]. split; [exact Ha|].
  destruct (rename_columns_well_formed plots_config (holding plots_no_field)
              plots_no_field ltac:(discriminate) eq_refl)
    as (d' & Hrun & _ & _ & Hn' & Ha').
  exists d'. split; [exact Hrun|]. split; [exact (Hn' Hn) | exact (Ha' Ha)].
Defined.

(** [plots] has an [Elevation] but no [Crop_type]. *)
Lemma apply_corrections_partial_witness :
  ("Crop_type" ∉ labels plots)
  ∧ ∃ d', apply_corrections survey_config "Crop_type" "Elevation" (holding plots)
          = (Raise (KeyError "Crop_type"), holding d')
      ∧ getitem d' "Elevation" = Ok (Int64 [430; 12]%Z).
Proof.
  assert (Hm : "Crop_type" ∉ labels plots) by compute_done.
  split; [exact Hm|].
  destruct (apply_corrections_partial survey_config (holding plots) plots
              "Crop_type" "Elevation" [-430; 12]%Z eq_refl eq_refl (or_introl Hm))
    as (d' & Hrun & Ha & _).
  exists d'. split; [exact Hrun | exact Ha].
Defined.

Lemma apply_corrections_twice_witness :
  Forall in_int64 [-5; 0; 3; -9223372036854775808]%Z
  ∧ ∃ d1 d2,
      apply_corrections survey_config "Crop_type" "Elevation" (holding crops)
        = (Return (), holding d1)
      ∧ apply_corrections survey_config "Crop_type" "Elevation" (holding d1)
        = (Return (), holding d2)
      ∧ getitem d1 "Elevation" = Ok (Int64 [5; 0; 3; -9223372036854775808]%Z)
      ∧ getitem d2 "Elevation" = getitem d1 "Elevation"
      ∧ getitem d1 "Crop_type" = Ok (Object ["cassava"; "cassaval"; "tea"; "maize"])
      ∧ getitem d2 "Crop_type" = Ok (Object ["cassava"; "cassava"; "tea"; "maize"]).
Proof.
  assert (Hr : Forall in_int64 [-5; 0; 3; -9223372036854775808]%Z).
  { unfold in_int64. repeat (constructor; [lia|]). constructor. }
  split; [exact Hr|].
  destruct (apply_corrections_twice survey_config (holding crops) crops
              "Crop_type" "Elevation"
              ["cassaval"; " cassaval "; "tea "; "maize"]
              [-5; 0; 3; -9223372036854775808]%Z eq_refl eq_refl eq_refl Hr)
    as (d1 & d2 & H1 & H2 & H3 & H4 & H5).
  exists d1, d2. split; [exact H1|]. split; [exact H2|]. split; [exact H3|].
  split; [exact H4|]. split; [|exact H5].
  rewrite apply_corrections_crops in H1. by injection H1 as <-.
Defined.

Lemma apply_corrections_stripped_witness :
  ∃ d' vs,
    apply_corrections survey_config "Crop_type" "Elevation" (holding crops)
      = (Return (), holding d')
    ∧ getitem d' "Crop_type" = Ok (Object vs)
    ∧ length vs = 4
    ∧ Forall (λ v, starts_with_space v = false ∧ ends_with_space v = false
                   ∧ strip v = v) vs.
Proof.
  exact (apply_corrections_stripped survey_config (holding crops) crops
           "Crop_type" "Elevation"
           ["cassaval"; " cassaval "; "tea "; "maize"]
           [-5; 0; 3; -9223372036854775808]%Z eq_refl eq_refl eq_refl).
Defined.

Lemma weather_station_mapping_columns_witness :
  well_formed survey ∧ well_formed stations
  ∧ ∃ j, weather_station_mapping (world survey stations) survey_config
           (holding survey) = (Return j, holding j)
      ∧ labels j = ["Unnamed: 0"; "Field_ID"; "Elevation"; "Annual_yield";
                    "Crop_type"; "Weather_station"]
      ∧ well_formed j.
Proof.
  assert (Hs : well_formed survey) by (split; compute_done).
  assert (Hm : well_formed stations) by (split; compute_done).
  split; [exact Hs|]. split; [exact Hm|].
  eexists. split; [vm_compute; reflexivity|].
  edestruct (weather_station_mapping_columns (world survey stations)
               survey_config (holding survey) survey stations)
    as (Hl & _ & Hw); [reflexivity | reflexivity | vm_compute; reflexivity |].
  split; [exact Hl | exact (Hw Hs Hm)].
Defined.

Lemma process_well_formed_witness :
  well_formed survey ∧ well_formed stations
  ∧ ∃ d', df (process (world survey stations) survey_config init).2 = Some d'
      ∧ well_formed d'.
Proof.
  assert (Hs : well_formed survey) by (split; compute_done).
  assert (Hm : well_formed stations) by (split; compute_done).
  split; [exact Hs|]. split; [exact Hm|].
  eexists. split; [vm_compute; reflexivity|].
  apply (process_well_formed (world survey stations) survey_config init).
  - intros e t [= <-]. exact Hs.
  - intros m [= <-]. exact Hm.
  - intros d Hd. discriminate Hd.
  - vm_compute. reflexivity.
Defined.

Lemma process_end_to_end_witness :
  process (world survey stations) survey_config init
  = (Return (),
     mkState
       (Some (mkDF 2 [("Field_ID", Int64 [1; 2]%Z); ("Elevation", Int64 [430; 12]%Z);
                      ("Crop_type", Object ["cassaval"; "tea"]);
                      ("Annual_yield", Int64 [3; 4]%Z);
                      ("Weather_station", Int64 [4; 0]%Z)]))
       (Some survey_engine)).
Proof.
  refine (process_end_to_end (world survey stations) survey_config init
            survey_engine "Annual_yield" "Crop_type" [] survey
            [" cassaval "; "tea "] [-430; 12]%Z stations
            (mkDF 2 [("Unnamed: 0", Int64 [0; 1]%Z); ("Field_ID", Int64 [1; 2]%Z);
                     ("Elevation", Int64 [430; 12]%Z);
                     ("Crop_type", Object ["cassaval"; "tea"]);
                     ("Annual_yield", Int64 [3; 4]%Z);
                     ("Weather_station", Int64 [4; 0]%Z)])
            (or_intror (conj eq_refl eq_refl)) eq_refl eq_refl _ _
            _ _ eq_refl _ _);
    try compute_done; by vm_compute.
Defined.

Lemma initialize_logging_one_handler_witness :
  length (handlers (getLogger (logger_name "field_data_processor") ∅)) ≤ 1
  ∧ handlers (getLogger (logger_name "field_data_processor")
                (initialize_logging_each "field_data_processor"
                   ["NONE"; "info"; "Debug"; "verbose"] ∅))
    = [console_handler]
  ∧ length (handlers (getLogger (logger_name "field_data_processor")
                        (initialize_logging_each "field_data_processor"
                           ["NONE"; "info"; "Debug"; "verbose"] ∅))) ≤ 1.
Proof.
  assert (H0 : length (handlers (getLogger (logger_name "field_data_processor") ∅)) ≤ 1)
    by (vm_compute; lia).
  split; [exact H0|]. split; [by vm_compute|].
  exact (proj1 (initialize_logging_one_handler "field_data_processor"
                  ["NONE"; "info"; "Debug"; "verbose"] ∅ H0)).
Defined.

Lemma initialize_logging_none_sticks_witness :
  same_word "none" "NONE"
  ∧ disabled (getLogger (logger_name "field_data_processor")
                (initialize_logging_each "field_data_processor"
                   (["INFO"] ++ "none" :: ["DEBUG"; "INFO"]) ∅)) = true.
Proof.
  assert (Hn : same_word "none" "NONE").
  { simpl. repeat split; by right. }
  split; [exact Hn|].
  exact (proj1 (initialize_logging_none_sticks "field_data_processor"
                  ["INFO"] "none" ["DEBUG"; "INFO"] ∅ Hn)).
Defined.

Lemma init_configuration_witness :
  ∃ a, __init__ "field_data_processor" params "INFO" ∅
       = (Ok (a, init), initialize_logging "field_data_processor" "INFO" ∅)
    ∧ as_config a = Some survey_config.
Proof.
  destruct (init_configuration "field_data_processor" params "INFO" ∅
              "sqlite:///Maji_Ndogo_farm_survey_small.db"
              "SELECT * FROM geographic_features"
              [("Annual_yield", "Crop_type")] [("cassaval", "cassava")]
              "Weather_data_field_mapping.csv"
              eq_refl eq_refl eq_refl eq_refl eq_refl) as (a & Hrun & Hcfg).
  exists a. split; [exact Hrun|]. rewrite Hcfg. reflexivity.
Defined.

(** Without the key [sql_query], [KeyError] names it and no logger is
    made. *)
Example init_without_query :
  __init__ "field_data_processor" params_without_query "INFO" ∅
  = (Err (KeyError "sql_query"), ∅).
Proof. by vm_compute. Qed.

Lemma ingest_sql_data_outcomes_witness :
  ∃ s', ingest_sql_data (world_without_driver survey stations) survey_config init
        = (Raise UnboundLocalError, s')
    ∧ df s' = None ∧ engine s' = None.
Proof.
  destruct (ingest_sql_data_outcomes (world_without_driver survey stations)
              survey_config init) as (r & s' & Hrun & Hr & _ & He).
  assert (Hc : ingest_sql_data (world_without_driver survey stations)
                 survey_config init = (Raise UnboundLocalError, init))
    by reflexivity.
  rewrite Hc in Hrun. injection Hrun as <- <-.
  exists init. split; [exact Hc|]. split; [exact Hr | exact (He eq_refl)].
Defined.

Lemma engine_kept_witness :
  engine (process (world_without_driver survey stations) survey_config
            (holding_with_engine plots)).2 = Some survey_engine.
Proof.
  destruct (engine_kept (world_without_driver survey stations) survey_config
              (holding_with_engine plots)) as (_ & _ & _ & _ & Hp).
  exact (Hp survey_engine eq_refl).
Defined.

Lemma rename_columns_outcomes_witness :
  rename_columns config_without_pair init = (Raise IndexError, init)
  ∧ rename_columns plots_config init = (Raise AttributeError, init)
  ∧ ∃ s', rename_columns plots_config (holding plots) = (Return (), s').
Proof.
  split; [|split].
  - exact (proj1 (rename_columns_outcomes config_without_pair init) eq_refl).
  - exact (proj1 (proj2 (rename_columns_outcomes plots_config init))
             ltac:(discriminate) eq_refl).
  - exact (proj2 (proj2 (rename_columns_outcomes plots_config (holding plots)))
             ltac:(discriminate) (mk_is_Some _ _ eq_refl)).
Defined.

Lemma apply_corrections_raises_untouched_witness :
  apply_corrections survey_config "Crop_type" "Elevation" init
  = (Raise TypeError, init)
  ∧ apply_corrections survey_config "Crop_type" "Altitude" (holding plots)
    = (Raise (KeyError "Altitude"), holding plots)
  ∧ apply_corrections survey_config "Field_ID" "Crop_type" (holding cassaval_row)
    = (Raise TypeError, holding cassaval_row).
Proof.
  split; [|split].
  - exact (proj1 (apply_corrections_raises_untouched survey_config init
                    "Crop_type" "Elevation") eq_refl).
  - refine (proj1 (proj2 (apply_corrections_raises_untouched survey_config
                            (holding plots) "Crop_type" "Altitude"))
              plots eq_refl _).
    compute_done.
  - exact (proj2 (proj2 (apply_corrections_raises_untouched survey_config
                           (holding cassaval_row) "Field_ID" "Crop_type"))
             cassaval_row " cassaval " [] eq_refl eq_refl).
Defined.


Lemma initialize_logging_level_witness :
  same_word "Debug" "DEBUG"
  ∧ initialize_logging "field_data_processor" "Debug" ∅
    = initialize_logging "field_data_processor" "DEBUG" ∅
  ∧ initialize_logging "field_data_processor" "verbose" ∅
    = initialize_logging "field_data_processor" "INFO" ∅.
Proof.
  assert (Hd : same_word "Debug" "DEBUG").
  { simpl. repeat split; (by left) || (by right). }
  split; [exact Hd|]. split.
  - exact (proj1 (initialize_logging_level "field_data_processor" "Debug" ∅) Hd).
  - refine (proj2 (proj2 (proj2 (initialize_logging_level
                                   "field_data_processor" "verbose" ∅))) _ _);
      intros H; apply same_word_length in H; discriminate H.
Defined.
